(** * passwordChecker: the scorer and the breach lookup of [passwordChecker.py]

    A shallow embedding of the class [PasswordChecker]:
    [is_generic_password], [score_password] and [check_pwned_password],
    together with the parts of the Python runtime they call
    ([str.lower], [str.upper], [str.isupper], [str.islower], [str.isdigit],
    [str.splitlines], [str.split], [int], [str.encode], [hashlib.sha1],
    [string.punctuation]) and of [requests] ([get], [raise_for_status]).

    A Python [str] is a sequence of code points: [pystr] is [list Z].
    On ASCII the runtime's classification and case mapping are written out;
    outside ASCII they are read from the interpreter's Unicode database,
    which is not part of the repository and is taken as the class
    [UnicodeData].  [int] has the interpreter's default limit of 4300
    digits ([sys.int_max_str_digits]); the machine's memory is outside the
    model.  A service is a function of the request: it answers, fails,
    redirects or makes [requests] raise.

    [show_menu] and [main] are embedded as a function of the lines that
    [input] reads: what is written, the requests sent, and whether the loop
    returns or [input] raises EOFError at the end of the input. *)

From Stdlib Require Import ZArith List Bool Lia String Ascii.
From Stdlib Require DecimalString.
Import ListNotations.
Local Open Scope Z_scope.

(** ** Python strings *)

Definition pystr := list Z.

Fixpoint ustr (s : string) : pystr :=
  match s with
  | EmptyString => []
  | String a r => Z.of_N (N_of_ascii a) :: ustr r
  end.

Definition len (s : pystr) : Z := Z.of_nat (List.length s).

Fixpoint pystr_eqb (a b : pystr) : bool :=
  match a, b with
  | [], [] => true
  | x :: a', y :: b' => (x =? y) && pystr_eqb a' b'
  | _, _ => false
  end.

Definition is_ascii (c : Z) : bool := (0 <=? c) && (c <? 128).
Definition ascii_isupper (c : Z) : bool := (65 <=? c) && (c <=? 90).
Definition ascii_islower (c : Z) : bool := (97 <=? c) && (c <=? 122).
Definition ascii_isdigit (c : Z) : bool := (48 <=? c) && (c <=? 57).
Definition ascii_isalnum (c : Z) : bool :=
  ascii_isupper c || ascii_islower c || ascii_isdigit c.
Definition ascii_lower (c : Z) : Z := if ascii_isupper c then c + 32 else c.
Definition ascii_upper (c : Z) : Z := if ascii_islower c then c - 32 else c.

(** [string.punctuation], in the order of the standard library's literal. *)
Definition string_punctuation : pystr :=
  [33; 34; 35; 36; 37; 38; 39; 40; 41; 42; 43; 44; 45; 46; 47;
   58; 59; 60; 61; 62; 63; 64;
   91; 92; 93; 94; 95; 96;
   123; 124; 125; 126].

(** [c in symbols] for the set [symbols = set(string.punctuation)]. *)
Definition in_symbols (c : Z) : bool := existsb (Z.eqb c) string_punctuation.

(** The interpreter's Unicode database, consulted for code points outside
    ASCII only. *)
Class UnicodeData := {
  uni_lower : pystr -> pystr;      (* str.lower of a string that is not all ASCII *)
  uni_upper : pystr -> pystr;      (* str.upper of a string that is not all ASCII *)
  uni_isupper : Z -> bool;
  uni_islower : Z -> bool;
  uni_isdigit : Z -> bool;
  uni_isspace : Z -> bool;
  uni_todecimal : Z -> option Z    (* the decimal value of a code point of category Nd *)
}.

(** The database cut down to ASCII: no code point outside it has a case, is a
    digit or is a space.  It is enough to run the model on ASCII inputs, for
    which no table is read. *)
Definition ascii_only : UnicodeData := {|
  uni_lower := fun s => s;
  uni_upper := fun s => s;
  uni_isupper := fun _ => false;
  uni_islower := fun _ => false;
  uni_isdigit := fun _ => false;
  uni_isspace := fun _ => false;
  uni_todecimal := fun _ => None
|}.

(** ** UTF-8 *)

Module Utf8.

Definition is_surrogate (c : Z) : bool := (0xD800 <=? c) && (c <=? 0xDFFF).

(** One code point; [None] is the strict error handler's UnicodeEncodeError. *)
Definition encode_cp (c : Z) : option (list Z) :=
  if c <? 0 then None
  else if c <? 0x80 then Some [c]
  else if c <? 0x800 then
    Some [Z.lor 0xC0 (Z.shiftr c 6); Z.lor 0x80 (Z.land c 0x3F)]
  else if is_surrogate c then None
  else if c <? 0x10000 then
    Some [Z.lor 0xE0 (Z.shiftr c 12);
          Z.lor 0x80 (Z.land (Z.shiftr c 6) 0x3F);
          Z.lor 0x80 (Z.land c 0x3F)]
  else if c <? 0x110000 then
    Some [Z.lor 0xF0 (Z.shiftr c 18);
          Z.lor 0x80 (Z.land (Z.shiftr c 12) 0x3F);
          Z.lor 0x80 (Z.land (Z.shiftr c 6) 0x3F);
          Z.lor 0x80 (Z.land c 0x3F)]
  else None.

(** [s.encode('utf-8')]: the bytes, or the first code point that has none. *)
Fixpoint encode (s : pystr) : Z + list Z :=
  match s with
  | [] => inr []
  | c :: rest =>
      match encode_cp c with
      | None => inl c
      | Some bs =>
          match encode rest with
          | inl bad => inl bad
          | inr more => inr (bs ++ more)
          end
      end
  end.

End Utf8.

(** ** SHA-1 (FIPS 180-4), on bytes and 32-bit words held in [Z] *)

Module Sha1.

Definition mask32 : Z := 0xFFFFFFFF.
Definition add32 (x y : Z) : Z := (x + y) mod 2 ^ 32.
Definition rotl32 (n x : Z) : Z :=
  Z.lor (Z.land (Z.shiftl x n) mask32) (Z.shiftr x (32 - n)).
Definition not32 (x : Z) : Z := Z.lxor x mask32.

Definition Ch (x y z : Z) : Z := Z.lxor (Z.land x y) (Z.land (not32 x) z).
Definition Parity (x y z : Z) : Z := Z.lxor (Z.lxor x y) z.
Definition Maj (x y z : Z) : Z :=
  Z.lxor (Z.lxor (Z.land x y) (Z.land x z)) (Z.land y z).

Definition f (t : nat) : Z -> Z -> Z -> Z :=
  if Nat.ltb t 20 then Ch
  else if Nat.ltb t 40 then Parity
  else if Nat.ltb t 60 then Maj
  else Parity.

Definition K (t : nat) : Z :=
  if Nat.ltb t 20 then 0x5A827999
  else if Nat.ltb t 40 then 0x6ED9EBA1
  else if Nat.ltb t 60 then 0x8F1BBCDC
  else 0xCA62C1D6.

Record state := mkState { h0 : Z; h1 : Z; h2 : Z; h3 : Z; h4 : Z }.

Definition initial : state :=
  mkState 0x67452301 0xEFCDAB89 0x98BADCFE 0x10325476 0xC3D2E1F0.

(** Padding: the byte 0x80, zeros up to 56 modulo 64, the bit length on 64 bits. *)
Definition be_bytes (n : nat) (x : Z) : list Z :=
  map (fun i => Z.land (Z.shiftr x (8 * Z.of_nat i)) 0xFF) (rev (seq 0 n)).

Definition pad (msg : list Z) : list Z :=
  let l := List.length msg in
  let k := Z.to_nat ((55 - Z.of_nat l) mod 64) in
  msg ++ [0x80] ++ repeat 0 k ++ be_bytes 8 (8 * Z.of_nat l).

Fixpoint words (n : nat) (bs : list Z) : list Z :=
  match n, bs with
  | S n', b0 :: b1 :: b2 :: b3 :: rest =>
      (Z.lor (Z.shiftl b0 24) (Z.lor (Z.shiftl b1 16) (Z.lor (Z.shiftl b2 8) b3)))
      :: words n' rest
  | _, _ => []
  end.

(** The message schedule, most recent word first. *)
Fixpoint schedule (n : nat) (rw : list Z) : list Z :=
  match n with
  | O => rw
  | S n' =>
      let x := Z.lxor (Z.lxor (nth 2 rw 0) (nth 7 rw 0))
                      (Z.lxor (nth 13 rw 0) (nth 15 rw 0)) in
      schedule n' (rotl32 1 x :: rw)
  end.

Definition round (s : state) (tw : nat * Z) : state :=
  let (t, w) := tw in
  let T := add32 (add32 (add32 (add32 (rotl32 5 (h0 s)) (f t (h1 s) (h2 s) (h3 s)))
                               (h4 s)) (K t)) w in
  mkState T (h0 s) (rotl32 30 (h1 s)) (h2 s) (h3 s).

Definition compress (h : state) (block : list Z) : state :=
  let W := rev (schedule 64 (rev (words 16 block))) in
  let s := fold_left round (combine (seq 0 80) W) h in
  mkState (add32 (h0 h) (h0 s)) (add32 (h1 h) (h1 s)) (add32 (h2 h) (h2 s))
          (add32 (h3 h) (h3 s)) (add32 (h4 h) (h4 s)).

Fixpoint blocks (n : nat) (bs : list Z) (h : state) : state :=
  match n with
  | O => h
  | S n' => blocks n' (skipn 64 bs) (compress h (firstn 64 bs))
  end.

(** [hashlib.sha1(data).digest()]: twenty bytes. *)
Definition digest (data : list Z) : list Z :=
  let p := pad data in
  let s := blocks (Nat.div (List.length p) 64) p initial in
  be_bytes 4 (h0 s) ++ be_bytes 4 (h1 s) ++ be_bytes 4 (h2 s)
    ++ be_bytes 4 (h3 s) ++ be_bytes 4 (h4 s).

Definition hex_digit (n : Z) : Z := if n <? 10 then 48 + n else 87 + n.

(** [hashlib.sha1(data).hexdigest()]: lowercase hexadecimal. *)
Definition hexdigest (data : list Z) : pystr :=
  flat_map (fun b => [hex_digit (Z.shiftr b 4); hex_digit (Z.land b 0xF)])
           (digest data).

End Sha1.

(** The characters of a lowercase hexadecimal digest. *)
Definition lower_hex (c : Z) : bool := ascii_isdigit c || ((97 <=? c) && (c <=? 102)).

(** ** Built-ins of the runtime *)

Section Builtins.
Context {ucd : UnicodeData}.

(** [c.isupper()], [c.islower()], [c.isdigit()] for a one-character string. *)
Definition isupper (c : Z) : bool :=
  if is_ascii c then ascii_isupper c else uni_isupper c.
Definition islower (c : Z) : bool :=
  if is_ascii c then ascii_islower c else uni_islower c.
Definition isdigit (c : Z) : bool :=
  if is_ascii c then ascii_isdigit c else uni_isdigit c.

(** [s.lower()] and [s.upper()]. *)
Definition str_lower (s : pystr) : pystr :=
  if forallb is_ascii s then map ascii_lower s else uni_lower s.
Definition str_upper (s : pystr) : pystr :=
  if forallb is_ascii s then map ascii_upper s else uni_upper s.

(** The line boundaries of [str.splitlines]. *)
Definition is_linebreak (c : Z) : bool :=
  existsb (Z.eqb c) [10; 11; 12; 13; 28; 29; 30; 0x85; 0x2028; 0x2029].

(** [s.splitlines()]: the lines without their ends; a carriage return
    followed by a line feed is one boundary. *)
Fixpoint splitlines (s : pystr) : list pystr :=
  match s with
  | [] => []
  | c :: rest =>
      if is_linebreak c then
        match rest with
        | d :: rest' =>
            if (c =? 13) && (d =? 10) then [] :: splitlines rest'
            else [] :: splitlines rest
        | [] => [[]]
        end
      else
        match splitlines rest with
        | [] => [[c]]
        | l :: ls => (c :: l) :: ls
        end
  end.

(** [s.split(sep)] for a separator of one character. *)
Fixpoint str_split (sep : Z) (s : pystr) : list pystr :=
  match s with
  | [] => [[]]
  | c :: rest =>
      if c =? sep then [] :: str_split sep rest
      else
        match str_split sep rest with
        | [] => [[c]]
        | fld :: flds => (c :: fld) :: flds
        end
  end.

(** [int(s)] in base ten.  Code points outside ASCII are first mapped to
    ASCII: a space to [' '], a decimal digit to its ASCII digit, and anything
    else makes the literal invalid. *)
Definition int_to_ascii (c : Z) : option Z :=
  if is_ascii c then Some c
  else if uni_isspace c then Some 32
  else
    match uni_todecimal c with
    | Some d => if (0 <=? d) && (d <=? 9) then Some (48 + d) else None
    | None => None
    end.

Fixpoint int_transform (s : pystr) : option pystr :=
  match s with
  | [] => Some []
  | c :: rest =>
      match int_to_ascii c, int_transform rest with
      | Some a, Some r => Some (a :: r)
      | _, _ => None
      end
  end.

Definition c_isspace (c : Z) : bool := existsb (Z.eqb c) [9; 10; 11; 12; 13; 32].

Fixpoint skip_space (s : pystr) : pystr :=
  match s with
  | c :: rest => if c_isspace c then skip_space rest else s
  | [] => []
  end.

(** [sys.int_max_str_digits], as the interpreter starts: a decimal literal
    of more digits is refused. *)
Definition int_max_str_digits : nat := 4300.

Definition underscore : Z := 95.
Definition plus_sign : Z := 43.
Definition minus_sign : Z := 45.

(** The digits of the literal, single underscores allowed between them:
    the value, the number of digits, the last character read, what follows. *)
Fixpoint int_digits (prev acc : Z) (n : nat) (s : pystr) : option (Z * nat * Z * pystr) :=
  match s with
  | c :: rest =>
      if ascii_isdigit c then int_digits c (10 * acc + (c - 48)) (S n) rest
      else if c =? underscore then
        if prev =? underscore then None else int_digits c acc n rest
      else Some (acc, n, prev, s)
  | [] => Some (acc, n, prev, [])
  end.

Definition starts_with (c : Z) (s : pystr) : bool :=
  match s with
  | d :: _ => d =? c
  | [] => false
  end.

(** After the sign: no underscore in front or at the end, one digit at
    least and [int_max_str_digits] at most, and nothing but spaces after the
    digits. *)
Definition int_unsigned (s : pystr) : option Z :=
  if starts_with underscore s then None
  else
    match int_digits 0 0 O s with
    | Some (v, n, prev, rest) =>
        if (prev =? underscore) || Nat.eqb n 0 then None
        else if Nat.ltb int_max_str_digits n then None
        else match skip_space rest with [] => Some v | _ :: _ => None end
    | None => None
    end.

Definition int_ascii (s : pystr) : option Z :=
  let s' := skip_space s in
  if starts_with plus_sign s' then int_unsigned (tl s')
  else if starts_with minus_sign s' then option_map Z.opp (int_unsigned (tl s'))
  else int_unsigned s'.

(** [int(s)]: [None] is ValueError (an invalid literal, or one of more
    digits than the limit). *)
Definition py_int (s : pystr) : option Z :=
  match int_transform s with
  | Some a => int_ascii a
  | None => None
  end.

(** [str(n)] for an integer. *)
Definition str_of_int (n : Z) : pystr :=
  ustr (DecimalString.NilZero.string_of_int (Z.to_int n)).

End Builtins.

(** ** Exceptions, the remote service and the effects of a call *)

(** [requests.exceptions.RequestException] and the subclasses that matter. *)
Inductive RequestExceptionClass :=
| ConnectionError | Timeout | TooManyRedirects | HTTPError | OtherRequestException.

Record RequestException := mkRequestException {
  exc_class : RequestExceptionClass;
  exc_message : pystr               (* str(e) *)
}.

Inductive ValueErrorKind :=
| Unpack (nfields : nat)            (* for h, count in hashes *)
| InvalidLiteral (s : pystr).       (* int(count) *)

Inductive exn :=
| UnicodeEncodeError (c : Z)
| RequestsError (e : RequestException)
| RuntimeError (msg : pystr) (context : RequestException)
| ValueError (k : ValueErrorKind)
| OtherException (text : pystr).    (* raised inside requests, no RequestException *)

Record Request := mkRequest { req_url : pystr; req_timeout : Z }.
(** [resp_url] is the URL the response came from, after redirects. *)
Record Response := mkResponse {
  status_code : Z; reason : pystr; resp_url : pystr; text : pystr
}.

(** What one request meets: a response that [requests] hands back (a
    redirect status without a Location header among them); an exception
    raised inside [requests] (refused connection, DNS failure, timeout, ...);
    a redirect (status 301, 302, 303, 307 or 308 with a Location header),
    which [requests] follows to [target], the URL the header resolves to; or
    an exception of another class than RequestException (OSError for a
    missing CA bundle, ...). *)
Inductive Reply :=
| Answer (r : Response)
| Failure (e : RequestException)
| Redirection (target : pystr)
| Crash (text : pystr).

Definition Service := Request -> Reply.

Inductive outcome (A : Type) :=
| Return (a : A)
| Raise (e : exn).
Arguments Return {A} a.
Arguments Raise {A} e.

(** A computation reads the service, appends to the log of requests that
    left the process, and returns or raises. *)
Definition M (A : Type) := Service -> list Request -> outcome A * list Request.

Definition ret {A} (a : A) : M A := fun _ log => (Return a, log).
Definition raise {A} (e : exn) : M A := fun _ log => (Raise e, log).
Definition bind {A B} (m : M A) (k : A -> M B) : M B :=
  fun svc log =>
    match m svc log with
    | (Return a, log') => k a svc log'
    | (Raise e, log') => (Raise e, log')
    end.
Definition lift {A} (o : outcome A) : M A := fun _ log => (o, log).

Notation "x <- m ;; k" := (bind m (fun x => k))
  (at level 61, m at next level, right associativity).

(** [try: body / except requests.exceptions.RequestException as e: handler]. *)
Definition try_except_RequestException {A} (body : M A) (handler : RequestException -> M A) : M A :=
  fun svc log =>
    match body svc log with
    | (Raise (RequestsError e), log') => handler e svc log'
    | r => r
    end.

(** [Session.max_redirects]. *)
Definition max_redirects : nat := 30.

Definition too_many_redirects : RequestException :=
  mkRequestException TooManyRedirects (ustr "Exceeded 30 redirects.").

(** One request and, while the replies are redirects, the requests that
    follow them, each with the same timeout; the redirect after [hops]
    followed ones raises TooManyRedirects. *)
Fixpoint send_following (hops : nat) (url : pystr) (t : Z) : M Response :=
  fun svc log =>
    let rq := mkRequest url t in
    match svc rq with
    | Answer r => (Return r, log ++ [rq])
    | Failure e => (Raise (RequestsError e), log ++ [rq])
    | Crash text => (Raise (OtherException text), log ++ [rq])
    | Redirection target =>
        match hops with
        | O => (Raise (RequestsError too_many_redirects), log ++ [rq])
        | S hops' => send_following hops' target t svc (log ++ [rq])
        end
    end.

(** [requests.get(url, timeout=t)]: redirects are followed
    ([allow_redirects] is True for GET). *)
Definition requests_get (url : pystr) (t : Z) : M Response :=
  send_following max_redirects url t.

(** What [requests.get(url, timeout=10)] yields from a service, and the
    requests it sends for it. *)
Definition outcome_of_get (svc : Service) (url : pystr) : outcome Response :=
  fst (requests_get url 10 svc []).
Definition requests_sent (svc : Service) (url : pystr) : list Request :=
  snd (requests_get url 10 svc []).

(** A request that follows a redirect: its URL is one the service named in
    a Redirection reply. *)
Definition server_chosen (svc : Service) (rq : Request) : Prop :=
  req_timeout rq = 10 /\ exists asked, svc asked = Redirection (req_url rq).

(** [response.raise_for_status()]: HTTPError for a status in 400..599. *)
Definition http_error_msg (r : Response) : option pystr :=
  if (400 <=? status_code r) && (status_code r <? 500) then
    Some (str_of_int (status_code r) ++ ustr " Client Error: " ++ reason r
            ++ ustr " for url: " ++ resp_url r)
  else if (500 <=? status_code r) && (status_code r <? 600) then
    Some (str_of_int (status_code r) ++ ustr " Server Error: " ++ reason r
            ++ ustr " for url: " ++ resp_url r)
  else None.

Definition raise_for_status (r : Response) : M unit :=
  match http_error_msg r with
  | Some msg => raise (RequestsError (mkRequestException HTTPError msg))
  | None => ret tt
  end.

(** ** The class [PasswordChecker] *)

Record PasswordChecker := mkPasswordChecker { common_passwords : list pystr }.

(** [PasswordChecker()]: the constructor's list. *)
Definition new_PasswordChecker : PasswordChecker :=
  mkPasswordChecker
    (map ustr
       ["123456"; "password"; "12345678"; "qwerty"; "123456789"; "1234"; "111111"; "dragon";
        "123123"; "baseball"; "football"; "monkey"; "letmein"; "shadow"; "master"; "qwertyuiop"]%string).

Definition colon : Z := 58.

Section Methods.
Context {ucd : UnicodeData}.

(** [password.lower() in (p.lower() for p in self.common_passwords)]. *)
Definition is_generic_password (self : PasswordChecker) (password : pystr) : bool :=
  existsb (pystr_eqb (str_lower password)) (map str_lower (common_passwords self)).

Definition score_password (self : PasswordChecker) (password : pystr) : Z :=
  let score := 0 in
  if is_generic_password self password then 0
  else
    let score :=
      if 8 <=? len password then score + 2
      else if 5 <=? len password then score + 1
      else score in
    let score := if existsb isupper password then score + 2 else score in
    let score := if existsb islower password then score + 2 else score in
    let score := if existsb isdigit password then score + 2 else score in
    let score := if existsb in_symbols password then score + 2 else score in
    score.

(** [password.encode('utf-8')]. *)
Definition encode_utf8 (s : pystr) : outcome (list Z) :=
  match Utf8.encode s with
  | inr bs => Return bs
  | inl c => Raise (UnicodeEncodeError c)
  end.

(** The loop over [hashes]: each line's fields are unpacked into [h, count];
    the first [h] equal to [suffix] ends the loop with [int(count)]. *)
Fixpoint scan_hashes (suffix : pystr) (hashes : list (list pystr)) : outcome Z :=
  match hashes with
  | [] => Return 0
  | fields :: rest =>
      match fields with
      | [h; count] =>
          if pystr_eqb h suffix then
            match py_int count with
            | Some n => Return n
            | None => Raise (ValueError (InvalidLiteral count))
            end
          else scan_hashes suffix rest
      | _ => Raise (ValueError (Unpack (List.length fields)))
      end
  end.

(** [hashlib.sha1(data).hexdigest().upper()]. *)
Definition sha1_upper (data : list Z) : pystr := str_upper (Sha1.hexdigest data).

Definition range_url (prefix : pystr) : pystr :=
  ustr "https://api.pwnedpasswords.com/range/" ++ prefix.

Definition check_pwned_password (self : PasswordChecker) (password : pystr) : M Z :=
  data <- lift (encode_utf8 password) ;;
  let sha1password := sha1_upper data in
  let prefix := firstn 5 sha1password in
  let suffix := skipn 5 sha1password in
  let url := range_url prefix in
  response <-
    try_except_RequestException
      (response <- requests_get url 10 ;;
       _ <- raise_for_status response ;;
       ret response)
      (fun e => raise (RuntimeError (ustr "Network error: " ++ exc_message e) e)) ;;
  let hashes := map (str_split colon) (splitlines (text response)) in
  lift (scan_hashes suffix hashes).

End Methods.

(** ** The specification's vocabulary *)

Module Spec.
Section Vocabulary.
Context {ucd : UnicodeData}.

(** "contains at least one character" of a class. *)
Definition contains (cls : Z -> bool) (s : pystr) : Prop :=
  exists c, In c s /\ cls c = true.

(** An indicator is 1 exactly when its condition holds, and 0 otherwise. *)
Definition indicator (P : Prop) (i : Z) : Prop := (P /\ i = 1) \/ (~ P /\ i = 0).

(** "compared case-insensitively, exactly equals some entry" of the set. *)
Definition in_common_set (self : PasswordChecker) (password : pystr) : Prop :=
  exists q, In q (common_passwords self) /\ str_lower password = str_lower q.

(** The printable, non-alphanumeric, non-space ASCII characters. *)
Definition ascii_punctuation (c : Z) : bool :=
  (32 <? c) && (c <? 127) && negb (ascii_isalnum c).

(** Length >= 8 gives 2; else length >= 5 gives 1; else 0. *)
Definition length_bonus (password : pystr) (b : Z) : Prop :=
  (8 <= len password /\ b = 2)
  \/ (~ 8 <= len password /\ 5 <= len password /\ b = 1)
  \/ (~ 8 <= len password /\ ~ 5 <= len password /\ b = 0).

(** Every check that [p] satisfies, [q] satisfies: the two length tiers and
    the four character classes. *)
Definition checks_included (p q : pystr) : Prop :=
  (5 <= len p -> 5 <= len q) /\
  (8 <= len p -> 8 <= len q) /\
  (contains isupper p -> contains isupper q) /\
  (contains islower p -> contains islower q) /\
  (contains isdigit p -> contains isdigit q) /\
  (contains in_symbols p -> contains in_symbols q).

(** A 2xx status. *)
Definition success_status (s : Z) : bool := (200 <=? s) && (s <? 300).

Definition upper_hex (c : Z) : bool := ascii_isdigit c || ((65 <=? c) && (c <=? 70)).

(** A breach record SUFFIX:COUNT: the suffix holds no colon and no line
    boundary, the count is a non-empty run of ASCII decimal digits. *)
Definition suffix_field (s : pystr) : Prop :=
  Forall (fun c => c <> colon /\ is_linebreak c = false) s.

Definition count_field (ds : pystr) : Prop :=
  ds <> [] /\ Forall (fun c => ascii_isdigit c = true) ds.

Definition well_formed (rec : pystr * pystr) : Prop :=
  suffix_field (fst rec) /\ count_field (snd rec).

Definition decimal_value (ds : pystr) : Z :=
  fold_left (fun acc c => 10 * acc + (c - 48)) ds 0.

Definition line_of (rec : pystr * pystr) : pystr := fst rec ++ colon :: snd rec.

Fixpoint join (sep : pystr) (ls : list pystr) : pystr :=
  match ls with
  | [] => []
  | [l] => l
  | l :: rest => l ++ sep ++ join sep rest
  end.

(** Lines end with a line feed, or with a carriage return and a line feed. *)
Definition newline (sep : pystr) : Prop := sep = [10] \/ sep = [13; 10].

Definition body_of (sep : pystr) (recs : list (pystr * pystr)) : pystr :=
  join sep (map line_of recs).

End Vocabulary.
End Spec.

(** A service that answers every request with one response. *)
Definition mock (status : Z) (body : pystr) : Service :=
  fun rq => Answer (mkResponse status (ustr "") (req_url rq) body).

(** A service whose transport fails. *)
Definition mock_failure (e : RequestException) : Service := fun _ => Failure e.

Definition connection_refused : RequestException :=
  mkRequestException ConnectionError (ustr "Connection refused").

(** A service that has moved: every URL but [target] redirects to [target],
    which answers. *)
Definition mock_moved (target : pystr) (status : Z) (body : pystr) : Service :=
  fun rq =>
    if pystr_eqb (req_url rq) target
    then Answer (mkResponse status (ustr "") target body)
    else Redirection target.

(** A service that redirects every request to the URL it asked for. *)
Definition mock_loop : Service := fun rq => Redirection (req_url rq).

(** A service at which [requests] raises an exception that is no
    RequestException. *)
Definition mock_crash (text : pystr) : Service := fun _ => Crash text.

Definition moved_to : pystr := ustr "https://api.pwnedpasswords.com/v2/range".

(** Three records of the bucket 5BAA6; the second is the one of "password". *)
Definition sample_records : list (pystr * pystr) :=
  [(ustr "0018A45C4D1DEF81644B54AB7F969B88D65", ustr "1");
   (ustr "1E4C9B93F3F0682250B6CF8331B7EE68FD8", ustr "3861493");
   (ustr "011053FD0102E94D6AE2F8B83D76FAF94F6", ustr "2")].

(** A body with a line that is no record between two that are. *)
Definition sample_error_page : pystr :=
  ustr "0018A45C4D1DEF81644B54AB7F969B88D65:1" ++ [10]
  ++ ustr "<html>Service Unavailable</html>" ++ [10]
  ++ ustr "1E4C9B93F3F0682250B6CF8331B7EE68FD8:3861493".

(** ** The command interface: [show_menu] and [main] *)

(** What the program writes: [print(s)] writes [s] and a line feed,
    [input(prompt)] writes [prompt] before it reads a line. *)
Inductive Out :=
| Print (s : pystr)
| Prompt (s : pystr).

(** How [main] ends on an input that is a sequence of decoded lines: it
    returns after choice 3, or [input] meets the end of the input and raises
    EOFError, which nothing catches.  A run cut short from outside (Ctrl-C,
    input that cannot be decoded) is not described. *)
Inductive Ending := Exited | EOFError.

Definition show_menu : list Out :=
  [Print (ustr "====================================");
   Print (ustr "  Welcome to Password Checker");
   Print (ustr "====================================");
   Print (ustr "Please choose an option:");
   Print (ustr "1. Analyze Password Strength");
   Print (ustr "2. Has My Password Been Leaked?");
   Print (ustr "3. Exit");
   Print (ustr "====================================")].

Definition msg_too_common : pystr :=
  ustr "Result: This password is too common or weak. Please choose a stronger password.".
Definition msg_weak : pystr :=
  ustr "Result: Weak password. Consider adding uppercase, digits, symbols, or increasing length.".
Definition msg_moderate : pystr :=
  ustr "Result: Moderate password. Good, but can be improved for better security.".
Definition msg_strong : pystr := ustr "Result: Strong password. Well done!".

(** The chain [if score == 0 / elif score <= 4 / elif score <= 7 / else]. *)
Definition verdict (score : Z) : pystr :=
  if score =? 0 then msg_too_common
  else if score <=? 4 then msg_weak
  else if score <=? 7 then msg_moderate
  else msg_strong.

Definition msg_exiting : pystr := [10] ++ ustr "Exiting the program. Stay safe!" ++ [10].
Definition msg_invalid : pystr :=
  [10] ++ ustr "[!] Invalid choice. Please enter 1, 2, or 3." ++ [10].
Definition msg_good_news : pystr :=
  [10] ++ ustr "Good news " ++ [0x2014]
  ++ ustr " your password was NOT found in known data breaches." ++ [10].

(** The ASCII characters for which [str.isspace] holds. *)
Definition ascii_isspace (c : Z) : bool :=
  existsb (Z.eqb c) [9; 10; 11; 12; 13; 28; 29; 30; 31; 32].

Section CommandInterface.
Context {ucd : UnicodeData}.

Definition isspace (c : Z) : bool :=
  if is_ascii c then ascii_isspace c else uni_isspace c.

Fixpoint lstrip (s : pystr) : pystr :=
  match s with
  | c :: rest => if isspace c then lstrip rest else s
  | [] => []
  end.

Fixpoint rstrip (s : pystr) : pystr :=
  match s with
  | [] => []
  | c :: rest =>
      match rstrip rest with
      | [] => if isspace c then [] else [c]
      | kept => c :: kept
      end
  end.

(** [s.strip()]: without the spaces at both ends. *)
Definition strip (s : pystr) : pystr := rstrip (lstrip s).

(** [str(e)] for an exception: the message of a RuntimeError is its
    argument; the texts of the interpreter's own exceptions are the
    interpreter's. *)
Variable exception_text : exn -> pystr.

Definition str_exn (e : exn) : pystr :=
  match e with
  | RuntimeError msg _ => msg
  | _ => exception_text e
  end.

(** Choice 1, after the password is read. *)
Definition strength_report (checker : PasswordChecker) (password : pystr) : list Out :=
  let score := score_password checker password in
  [Print ([10] ++ ustr "Password Score: " ++ str_of_int score ++ ustr " / 10");
   Print (verdict score);
   Print []].

(** Choice 2, after the password is read: the [try] block and its
    [except Exception as e]. *)
Definition leak_report (checker : PasswordChecker) (svc : Service)
    (password : pystr) (log : list Request) : list Out * list Request :=
  match check_pwned_password checker password svc log with
  | (Return leaks, log') =>
      (if leaks =? 0 then [Print msg_good_news]
       else [Print ([10] ++ ustr "[!] Warning: Your password has been found "
                      ++ str_of_int leaks ++ ustr " times in data breaches!");
             Print (ustr "You should consider changing it to something more secure." ++ [10])],
       log')
  | (Raise e, log') =>
      ([Print ([10] ++ ustr "An error occurred: " ++ str_exn e ++ [10])], log')
  end.

Definition choice_prompt : Out := Prompt (ustr "Enter your choice (1-3): ").

(** The [while True] loop of [main] on the lines that [input] will read:
    what is written, the requests sent, and how the loop ends. *)
Fixpoint main_loop (checker : PasswordChecker) (svc : Service)
    (lines : list pystr) (log : list Request) : list Out * list Request * Ending :=
  match lines with
  | [] => (show_menu ++ [choice_prompt], log, EOFError)
  | line :: rest =>
      let choice := strip line in
      if pystr_eqb choice (ustr "1") then
        let head :=
          show_menu ++ [choice_prompt;
                        Print ([10] ++ ustr "You selected: Analyze Password Strength" ++ [10]);
                        Prompt (ustr "Enter the password to analyze: ")] in
        match rest with
        | [] => (head, log, EOFError)
        | typed :: rest' =>
            let password := strip typed in
            let '(out, log', ending) := main_loop checker svc rest' log in
            (head ++ strength_report checker password ++ out, log', ending)
        end
      else if pystr_eqb choice (ustr "2") then
        let head :=
          show_menu ++ [choice_prompt;
                        Print ([10] ++ ustr "You selected: Has My Password Been Leaked?" ++ [10]);
                        Prompt (ustr "Enter the password to check: ")] in
        match rest with
        | [] => (head, log, EOFError)
        | typed :: rest' =>
            let password := strip typed in
            let '(report, log1) := leak_report checker svc password log in
            let '(out, log', ending) := main_loop checker svc rest' log1 in
            (head ++ report ++ out, log', ending)
        end
      else if pystr_eqb choice (ustr "3") then
        (show_menu ++ [choice_prompt; Print msg_exiting], log, Exited)
      else
        let '(out, log', ending) := main_loop checker svc rest log in
        (show_menu ++ [choice_prompt; Print msg_invalid] ++ out, log', ending)
  end.

(** [main()]: a new checker, then the loop. *)
Definition main (svc : Service) (lines : list pystr) : list Out * list Request * Ending :=
  main_loop new_PasswordChecker svc lines [].

End CommandInterface.

(** ** Vocabulary of the further properties *)

Section MoreVocabulary.
Context {ucd : UnicodeData}.

(** The number of character classes (uppercase, lowercase, digit,
    punctuation) of which the password holds a character. *)
Definition classes_present (password : pystr) : Z :=
  (if existsb isupper password then 1 else 0)
  + (if existsb islower password then 1 else 0)
  + (if existsb isdigit password then 1 else 0)
  + (if existsb in_symbols password then 1 else 0).

(** A range query: the fixed base URL, five uppercase hexadecimal
    characters, timeout 10. *)
Definition range_query (rq : Request) : Prop :=
  exists prefix,
    List.length prefix = 5%nat /\
    Forall (fun c => Spec.upper_hex c = true) prefix /\
    rq = mkRequest (range_url prefix) 10.

(** The lines that, stripped, are the choice "2". *)
Definition lookups_asked (lines : list pystr) : nat :=
  List.length (filter (fun line => pystr_eqb (strip line) (ustr "2")) lines).

End MoreVocabulary.

(** What a run wrote, what it sent, how it ended. *)
Definition output_of (run : list Out * list Request * Ending) : list Out := fst (fst run).
Definition requests_of (run : list Out * list Request * Ending) : list Request := snd (fst run).
Definition ending_of (run : list Out * list Request * Ending) : Ending := snd run.


(** The interpreter's texts are not looked at where a session is only run. *)
Definition no_text : exn -> pystr := fun _ => [].

(** ** The model on concrete inputs *)

Example sha1_empty :
  Sha1.hexdigest [] = ustr "da39a3ee5e6b4b0d3255bfef95601890afd80709".
Proof. vm_compute. reflexivity. Qed.

Example sha1_abc :
  Sha1.hexdigest (ustr "abc") = ustr "a9993e364706816aba3e25717850c26c9cd0d89d".
Proof. vm_compute. reflexivity. Qed.

Example sha1_two_blocks :
  map (fun n => Sha1.hexdigest (repeat 97 n)) [56; 64; 119]%nat
  = map ustr ["c2db330f6083854c99d4b5bfb6e8f29f201be699";
              "0098ba824b5c16427bd7a1122a5a442a25ec644d";
              "ee971065aaa017e0632a8ca6c77bb3bf8b1dfc56"]%string.
Proof. vm_compute. reflexivity. Qed.

Example utf8_ex :
  Utf8.encode [233; 8364; 128512] = inr [195; 169; 226; 130; 172; 240; 159; 152; 128]
  /\ Utf8.encode [97; 0xDC80] = inl 0xDC80.
Proof. vm_compute. split; reflexivity. Qed.

Example sha1_unicode :
  option_map Sha1.hexdigest
    (match Utf8.encode [112; 228; 115; 115; 119; 246; 114; 100; 8364; 128512] with
     | inr bs => Some bs | inl _ => None end)
  = Some (ustr "910e1a2c3dc7b400f368fa6171efc59eaf59ed2d").
Proof. vm_compute. reflexivity. Qed.

Example splitlines_ex :
  map splitlines
      [ustr "a"; []; [10]; [97; 10]; [13; 10]; [10; 13];
       [97; 10; 10; 98; 13; 10; 99; 13; 100; 11; 101; 0x2028; 102; 31; 103]]
  = [[ustr "a"]; []; [[]]; [ustr "a"]; [[]]; [[]; []];
     [ustr "a"; []; ustr "b"; ustr "c"; ustr "d"; ustr "e"; [102; 31; 103]]].
Proof. vm_compute. reflexivity. Qed.

Example str_split_ex :
  map (str_split colon) [[]; ustr "a:b:c"; ustr ":"; ustr "ab"]
  = [[[]]; [ustr "a"; ustr "b"; ustr "c"]; [[]; []]; [ustr "ab"]].
Proof. vm_compute. reflexivity. Qed.

Example py_int_ex :
  map (py_int (ucd := ascii_only))
      [ustr " 5 "; ustr "+5"; ustr "-5"; ustr "1_0"; ustr "_1"; ustr "1_"; ustr "1__0";
       ustr "- 5"; []; ustr "-"; ustr "0012"; ustr "-0"; [31; 53]; [53; 0]; ustr "5x";
       ustr "+_1"; [9; 10; 11; 12; 13; 32; 55]]
  = [Some 5; Some 5; Some (-5); Some 10; None; None; None;
     None; None; None; Some 12; Some 0; None; None; None;
     None; Some 7].
Proof. vm_compute. reflexivity. Qed.

Example str_of_int_ex : map str_of_int [0; 304; -7] = [ustr "0"; ustr "304"; ustr "-7"].
Proof. vm_compute. reflexivity. Qed.

Example score_Tr0ub4dor :
  score_password (ucd := ascii_only) new_PasswordChecker (ustr "Tr0ub4dor&3") = 10.
Proof. vm_compute. reflexivity. Qed.

Example score_password_word :
  score_password (ucd := ascii_only) new_PasswordChecker (ustr "password") = 0.
Proof. vm_compute. reflexivity. Qed.

Example score_abc : score_password (ucd := ascii_only) new_PasswordChecker (ustr "abc") = 2.
Proof. vm_compute. reflexivity. Qed.

Example pwned_password_word :
  check_pwned_password (ucd := ascii_only) new_PasswordChecker (ustr "password")
    (mock 200 (Spec.body_of [13; 10] sample_records)) []
  = (Return 3861493,
     [mkRequest (ustr "https://api.pwnedpasswords.com/range/5BAA6") 10]).
Proof. vm_compute. reflexivity. Qed.

(** The digit limit of [int]: 4300 digits are read, 4301 are not, and
    leading zeros count. *)
Example py_int_limit_ex :
  map (fun s => match py_int (ucd := ascii_only) s with Some _ => true | None => false end)
      [repeat 49 4300; repeat 49 4301; repeat 48 4301; 45 :: repeat 49 4300;
       45 :: repeat 49 4301]
  = [true; false; false; true; false].
Proof. vm_compute. reflexivity. Qed.

(** A redirect is followed, and the body of the last response is read. *)
Example pwned_moved :
  check_pwned_password (ucd := ascii_only) new_PasswordChecker (ustr "password")
    (mock_moved moved_to 200 (Spec.body_of [13; 10] sample_records)) []
  = (Return 3861493,
     [mkRequest (ustr "https://api.pwnedpasswords.com/range/5BAA6") 10;
      mkRequest moved_to 10]).
Proof. vm_compute. reflexivity. Qed.

(** A redirect loop: 31 requests, then TooManyRedirects, shown as a network
    error. *)
Example pwned_redirect_loop :
  check_pwned_password (ucd := ascii_only) new_PasswordChecker (ustr "password") mock_loop []
  = (Raise (RuntimeError (ustr "Network error: Exceeded 30 redirects.") too_many_redirects),
     repeat (mkRequest (ustr "https://api.pwnedpasswords.com/range/5BAA6") 10) 31).
Proof. vm_compute. reflexivity. Qed.

(** An exception of [requests] that is no RequestException passes through. *)
Example pwned_crash :
  check_pwned_password (ucd := ascii_only) new_PasswordChecker (ustr "password")
    (mock_crash (ustr "Could not find a suitable TLS CA certificate bundle")) []
  = (Raise (OtherException (ustr "Could not find a suitable TLS CA certificate bundle")),
     [mkRequest (ustr "https://api.pwnedpasswords.com/range/5BAA6") 10]).
Proof. vm_compute. reflexivity. Qed.

Example pwned_unencodable :
  check_pwned_password (ucd := ascii_only) new_PasswordChecker [97; 0xDC80] (mock 200 []) []
  = (Raise (UnicodeEncodeError 0xDC80), []).
Proof. vm_compute. reflexivity. Qed.

(** ** Facts about the built-ins *)

Lemma pystr_eqb_eq (a b : pystr) : pystr_eqb a b = true <-> a = b.
Proof.
  revert b; induction a as [|x a IH]; intros [|y b]; simpl; split; intro H;
    try reflexivity; try discriminate.
  - apply andb_true_iff in H as [Hx Hab].
    apply Z.eqb_eq in Hx. apply IH in Hab. now subst.
  - injection H as -> ->. rewrite Z.eqb_refl. now apply IH.
Qed.

Lemma pystr_eqb_refl (a : pystr) : pystr_eqb a a = true.
Proof. now apply pystr_eqb_eq. Qed.

Lemma ascii_range (c : Z) :
  0 <= c < 128 -> In c (map Z.of_nat (seq 0 128)).
Proof.
  intro H. rewrite <- (Z2Nat.id c) by lia.
  apply in_map, in_seq. lia.
Qed.

Lemma in_symbols_punctuation (c : Z) : in_symbols c = Spec.ascii_punctuation c.
Proof.
  destruct (Z_lt_le_dec c 0) as [Hneg|Hpos]; [|destruct (Z_lt_le_dec c 128) as [Hlo|Hhi]].
  - unfold in_symbols, Spec.ascii_punctuation, string_punctuation. simpl existsb.
    repeat match goal with
           | |- context [c =? ?k] => replace (c =? k) with false by (symmetry; apply Z.eqb_neq; lia)
           end.
    replace (32 <? c) with false by (symmetry; apply Z.ltb_ge; lia). reflexivity.
  - assert (Hall : forallb (fun c => Bool.eqb (in_symbols c) (Spec.ascii_punctuation c))
                           (map Z.of_nat (seq 0 128)) = true) by (vm_compute; reflexivity).
    rewrite forallb_forall in Hall.
    apply eqb_prop, Hall, ascii_range. lia.
  - unfold in_symbols, Spec.ascii_punctuation, string_punctuation. simpl existsb.
    repeat match goal with
           | |- context [c =? ?k] => replace (c =? k) with false by (symmetry; apply Z.eqb_neq; lia)
           end.
    replace (c <? 127) with false by (symmetry; apply Z.ltb_ge; lia).
    now rewrite andb_false_r.
Qed.

Lemma in_symbols_In (c : Z) : in_symbols c = true <-> In c string_punctuation.
Proof.
  unfold in_symbols. rewrite existsb_exists. split.
  - intros (x & Hin & Heq). apply Z.eqb_eq in Heq. now subst.
  - intro Hin. exists c. split; [assumption | apply Z.eqb_refl].
Qed.

Lemma punctuation_NoDup : NoDup string_punctuation.
Proof.
  unfold string_punctuation.
  repeat (constructor; [simpl; intuition discriminate|]). constructor.
Qed.

Lemma existsb_pointwise (f g : Z -> bool) (s : pystr) :
  (forall c, f c = g c) -> existsb f s = existsb g s.
Proof.
  intro H. induction s as [|c s IH]; simpl; [reflexivity|]. now rewrite H, IH.
Qed.

(** ** The scorer *)

Section Scorer.
Context {ucd : UnicodeData}.
Variable self : PasswordChecker.

Lemma existsb_contains (cls : Z -> bool) (s : pystr) :
  existsb cls s = true <-> Spec.contains cls s.
Proof. unfold Spec.contains. apply existsb_exists. Qed.

Lemma indicator_existsb (cls : Z -> bool) (s : pystr) :
  Spec.indicator (Spec.contains cls s) (if existsb cls s then 1 else 0).
Proof.
  destruct (existsb cls s) eqn:E.
  - left. split; [now apply existsb_contains | reflexivity].
  - right. split; [|reflexivity].
    intro H. apply existsb_contains in H. congruence.
Qed.

Lemma is_generic_password_spec (password : pystr) :
  is_generic_password self password = true <-> Spec.in_common_set self password.
Proof.
  unfold is_generic_password, Spec.in_common_set.
  rewrite existsb_exists. split.
  - intros (x & Hin & Heq). apply in_map_iff in Hin as (q & <- & Hq).
    exists q. split; [assumption|]. now apply pystr_eqb_eq.
  - intros (q & Hq & Heq). exists (str_lower q). split.
    + now apply in_map.
    + now apply pystr_eqb_eq.
Qed.

Lemma not_generic (password : pystr) :
  ~ Spec.in_common_set self password -> is_generic_password self password = false.
Proof.
  intro H. destruct (is_generic_password self password) eqn:E; [|reflexivity].
  apply is_generic_password_spec in E. contradiction.
Qed.

(** The accumulation of [score_password], once the common-password test has
    failed, as one sum. *)
Lemma score_password_sum (password : pystr) :
  is_generic_password self password = false ->
  score_password self password =
    (if 8 <=? len password then 2 else if 5 <=? len password then 1 else 0)
    + 2 * (if existsb isupper password then 1 else 0)
    + 2 * (if existsb islower password then 1 else 0)
    + 2 * (if existsb isdigit password then 1 else 0)
    + 2 * (if existsb in_symbols password then 1 else 0).
Proof.
  intro Hg. unfold score_password. rewrite Hg.
  destruct (8 <=? len password), (5 <=? len password),
    (existsb isupper password), (existsb islower password),
    (existsb isdigit password), (existsb in_symbols password); reflexivity.
Qed.

(** C2: outside the common-password set, the score is the length bonus plus
    two points for each character class present; the length bonus is 2 from
    eight characters on, else 1 from five on, else 0; each indicator is 1
    exactly when the password holds a character of its class; and the
    punctuation class, [string.punctuation], is the 32 printable ASCII
    characters that are neither alphanumeric nor the space. *)
Theorem score_is_bonus_plus_classes (password : pystr) :
  ~ Spec.in_common_set self password ->
  (exists b u l d s,
      Spec.length_bonus password b /\
      Spec.indicator (Spec.contains isupper password) u /\
      Spec.indicator (Spec.contains islower password) l /\
      Spec.indicator (Spec.contains isdigit password) d /\
      Spec.indicator (Spec.contains Spec.ascii_punctuation password) s /\
      score_password self password = b + 2 * u + 2 * l + 2 * d + 2 * s) /\
  (NoDup string_punctuation /\ List.length string_punctuation = 32%nat /\
   forall c, In c string_punctuation <-> Spec.ascii_punctuation c = true).
Proof.
  intro Hnot. split.
  - apply not_generic in Hnot.
    exists (if 8 <=? len password then 2 else if 5 <=? len password then 1 else 0),
      (if existsb isupper password then 1 else 0),
      (if existsb islower password then 1 else 0),
      (if existsb isdigit password then 1 else 0),
      (if existsb in_symbols password then 1 else 0).
    repeat split; try apply indicator_existsb.
    + unfold Spec.length_bonus.
      destruct (8 <=? len password) eqn:E8; [left; split; [apply Z.leb_le, E8 | reflexivity]|].
      apply Z.leb_gt in E8.
      destruct (5 <=? len password) eqn:E5.
      * apply Z.leb_le in E5. right; left. repeat split; [lia | lia].
      * apply Z.leb_gt in E5. right; right. repeat split; lia.
    + replace (existsb in_symbols password)
        with (existsb Spec.ascii_punctuation password).
      * apply indicator_existsb.
      * apply existsb_pointwise. intro c. symmetry. apply in_symbols_punctuation.
    + now apply score_password_sum.
  - split; [apply punctuation_NoDup | split; [reflexivity|]].
    intro c. rewrite <- in_symbols_In. now rewrite in_symbols_punctuation.
Qed.

(** C3: a string whose lowercase form equals the lowercase form of an entry
    of the common-password list scores 0, whatever its length and its
    character classes. *)
Theorem common_password_scores_zero (password q : pystr) :
  In q (common_passwords self) ->
  str_lower password = str_lower q ->
  score_password self password = 0.
Proof.
  intros Hq Heq. unfold score_password.
  replace (is_generic_password self password) with true; [reflexivity|].
  symmetry. apply is_generic_password_spec. now exists q.
Qed.

(** C6: [score_password] is a function of every string (a list of
    arbitrary code points, the empty one included) into the integers, with
    no exceptional result; its value lies in 0..10, and the empty string
    scores 0. *)
Theorem score_total_in_range (password : pystr) :
  (exists n, score_password self password = n /\ 0 <= n <= 10) /\
  score_password self [] = 0.
Proof.
  split.
  - eexists. split; [reflexivity|].
    unfold score_password.
    destruct (is_generic_password self password), (8 <=? len password),
      (5 <=? len password), (existsb isupper password), (existsb islower password),
      (existsb isdigit password), (existsb in_symbols password); lia.
  - unfold score_password. simpl. now destruct (is_generic_password self []).
Qed.

Lemma contains_mono (cls : Z -> bool) (p q : pystr) :
  (Spec.contains cls p -> Spec.contains cls q) ->
  (if existsb cls p then 1 else 0) <= (if existsb cls q then 1 else 0).
Proof.
  intro H. destruct (existsb cls p) eqn:Ep.
  - apply existsb_contains, H, existsb_contains in Ep. rewrite Ep. lia.
  - destruct (existsb cls q); lia.
Qed.

(** C7: between two strings outside the common-password set, if the second
    satisfies every check the first satisfies (each length tier and each of
    the four character classes), its score is at least the first's. *)
Theorem score_monotone (p q : pystr) :
  ~ Spec.in_common_set self p ->
  ~ Spec.in_common_set self q ->
  Spec.checks_included p q ->
  score_password self p <= score_password self q.
Proof.
  intros Hp Hq (H5 & H8 & Hu & Hl & Hd & Hs).
  rewrite !score_password_sum by now apply not_generic.
  apply contains_mono in Hu, Hl, Hd, Hs.
  assert (Hlen : (if 8 <=? len p then 2 else if 5 <=? len p then 1 else 0)
                 <= (if 8 <=? len q then 2 else if 5 <=? len q then 1 else 0)).
  { destruct (8 <=? len p) eqn:P8, (8 <=? len q) eqn:Q8,
      (5 <=? len p) eqn:P5, (5 <=? len q) eqn:Q5; try lia;
      repeat match goal with
             | H : (_ <=? _) = true |- _ => apply Z.leb_le in H
             | H : (_ <=? _) = false |- _ => apply Z.leb_gt in H
             end; lia. }
  lia.
Qed.

End Scorer.

(** ** The hash as text *)

Lemma be_bytes_length (n : nat) (x : Z) : List.length (Sha1.be_bytes n x) = n.
Proof. unfold Sha1.be_bytes. now rewrite length_map, length_rev, length_seq. Qed.

Lemma be_bytes_range (n : nat) (x : Z) :
  Forall (fun b => 0 <= b < 256) (Sha1.be_bytes n x).
Proof.
  unfold Sha1.be_bytes. apply Forall_forall. intros b Hb.
  apply in_map_iff in Hb as (i & <- & _).
  change 0xFF with (Z.ones 8). rewrite Z.land_ones by lia.
  apply Z.mod_pos_bound. reflexivity.
Qed.

Lemma digest_length (data : list Z) : List.length (Sha1.digest data) = 20%nat.
Proof. unfold Sha1.digest. cbv zeta. now rewrite !length_app, !be_bytes_length. Qed.

Lemma digest_range (data : list Z) : Forall (fun b => 0 <= b < 256) (Sha1.digest data).
Proof.
  unfold Sha1.digest. cbv zeta.
  repeat (apply Forall_app; split); apply be_bytes_range.
Qed.

Lemma hex_digit_lower (n : Z) : 0 <= n < 16 -> lower_hex (Sha1.hex_digit n) = true.
Proof.
  intro H. unfold Sha1.hex_digit, lower_hex, ascii_isdigit.
  destruct (n <? 10) eqn:E; [apply Z.ltb_lt in E | apply Z.ltb_ge in E].
  - apply orb_true_iff. left. apply andb_true_iff. split; apply Z.leb_le; lia.
  - apply orb_true_iff. right. apply andb_true_iff. split; apply Z.leb_le; lia.
Qed.

Lemma hexdigest_length (data : list Z) : List.length (Sha1.hexdigest data) = 40%nat.
Proof.
  unfold Sha1.hexdigest.
  assert (H : forall l : list Z,
             List.length (flat_map (fun b => [Sha1.hex_digit (Z.shiftr b 4);
                                              Sha1.hex_digit (Z.land b 0xF)]) l)
             = (2 * List.length l)%nat).
  { induction l as [|b l IH]; simpl; [reflexivity | rewrite IH; lia]. }
  now rewrite H, digest_length.
Qed.

Lemma hexdigest_lower_hex (data : list Z) :
  Forall (fun c => lower_hex c = true) (Sha1.hexdigest data).
Proof.
  unfold Sha1.hexdigest. apply Forall_flat_map.
  eapply Forall_impl; [|apply digest_range].
  intros b Hb. cbv beta in *. repeat constructor.
  - apply hex_digit_lower. rewrite Z.shiftr_div_pow2 by lia.
    change (2 ^ 4) with 16. split; [apply Z.div_pos; lia | apply Z.div_lt_upper_bound; lia].
  - apply hex_digit_lower. change 0xF with (Z.ones 4). rewrite Z.land_ones by lia.
    apply Z.mod_pos_bound. reflexivity.
Qed.

Lemma lower_hex_ascii (c : Z) : lower_hex c = true -> is_ascii c = true.
Proof.
  unfold lower_hex, ascii_isdigit, is_ascii. intro H.
  apply orb_true_iff in H as [H|H]; apply andb_true_iff in H as [H1 H2];
    apply Z.leb_le in H1, H2; apply andb_true_iff;
    split; [apply Z.leb_le | apply Z.ltb_lt | apply Z.leb_le | apply Z.ltb_lt]; lia.
Qed.

Lemma lower_hex_upper (c : Z) : lower_hex c = true -> Spec.upper_hex (ascii_upper c) = true.
Proof.
  unfold lower_hex, Spec.upper_hex, ascii_upper, ascii_islower, ascii_isdigit. intro H.
  apply orb_true_iff in H as [H|H]; apply andb_true_iff in H as [H1 H2];
    apply Z.leb_le in H1, H2.
  - replace ((97 <=? c) && (c <=? 122)) with false
      by (symmetry; apply andb_false_iff; left; apply Z.leb_gt; lia).
    apply orb_true_iff. left. apply andb_true_iff. split; apply Z.leb_le; lia.
  - replace ((97 <=? c) && (c <=? 122)) with true
      by (symmetry; apply andb_true_iff; split; apply Z.leb_le; lia).
    apply orb_true_iff. right. apply andb_true_iff. split; apply Z.leb_le; lia.
Qed.

Section Hash.
Context {ucd : UnicodeData}.

(** On a hexadecimal digest [upper] reads no table. *)
Lemma sha1_upper_map (data : list Z) :
  sha1_upper data = map ascii_upper (Sha1.hexdigest data).
Proof.
  unfold sha1_upper, str_upper.
  replace (forallb is_ascii (Sha1.hexdigest data)) with true; [reflexivity|].
  symmetry. apply forallb_forall. intros c Hc. apply lower_hex_ascii.
  pose proof (hexdigest_lower_hex data) as H. rewrite Forall_forall in H. now apply H.
Qed.

Lemma sha1_upper_length (data : list Z) : List.length (sha1_upper data) = 40%nat.
Proof. now rewrite sha1_upper_map, length_map, hexdigest_length. Qed.

Lemma sha1_upper_hex (data : list Z) :
  Forall (fun c => Spec.upper_hex c = true) (sha1_upper data).
Proof.
  rewrite sha1_upper_map. apply Forall_map.
  eapply Forall_impl; [|apply hexdigest_lower_hex].
  intros c Hc. now apply lower_hex_upper.
Qed.

End Hash.

(** ** Lines and fields *)

Lemma In_firstn (n : nat) (l : pystr) (c : Z) : In c (firstn n l) -> In c l.
Proof.
  revert l. induction n as [|n IH]; intros [|x l] H; simpl in H; try contradiction.
  destruct H as [H|H]; [now left | right; now apply IH].
Qed.

Lemma splitlines_one_line (l : pystr) :
  l <> [] -> Forall (fun c => is_linebreak c = false) l -> splitlines l = [l].
Proof.
  induction l as [|c l IH]; intros Hne Hl; [congruence|].
  inversion Hl as [|? ? Hc Hl']; subst. simpl. rewrite Hc.
  destruct l as [|d l]; [reflexivity|].
  rewrite IH by (assumption || discriminate). reflexivity.
Qed.

Lemma splitlines_first_line (sep l s : pystr) :
  Spec.newline sep ->
  Forall (fun c => is_linebreak c = false) l ->
  splitlines (l ++ sep ++ s) = l :: splitlines s.
Proof.
  intros Hsep Hl. induction Hl as [|c l Hc Hl IH].
  - destruct Hsep as [-> | ->]; [destruct s|]; reflexivity.
  - change (splitlines (c :: (l ++ sep ++ s)) = (c :: l) :: splitlines s).
    cbn [splitlines]. rewrite Hc. fold splitlines. now rewrite IH.
Qed.

Lemma splitlines_join (sep : pystr) (ls : list pystr) :
  Spec.newline sep ->
  Forall (fun l => l <> [] /\ Forall (fun c => is_linebreak c = false) l) ls ->
  splitlines (Spec.join sep ls) = ls.
Proof.
  intros Hsep Hls. induction Hls as [|l ls [Hne Hl] Hls IH]; [reflexivity|].
  destruct ls as [|l2 ls].
  - now apply splitlines_one_line.
  - change (Spec.join sep (l :: l2 :: ls)) with (l ++ sep ++ Spec.join sep (l2 :: ls)).
    rewrite splitlines_first_line by assumption. now rewrite IH.
Qed.

Lemma str_split_no_sep (sep : Z) (s : pystr) :
  Forall (fun c => c <> sep) s -> str_split sep s = [s].
Proof.
  induction 1 as [|c s Hc Hs IH]; [reflexivity|].
  simpl. apply Z.eqb_neq in Hc. now rewrite Hc, IH.
Qed.

Lemma str_split_first_field (sep : Z) (s t : pystr) :
  Forall (fun c => c <> sep) s ->
  str_split sep (s ++ sep :: t) = s :: str_split sep t.
Proof.
  induction 1 as [|c s Hc Hs IH]; simpl.
  - now rewrite Z.eqb_refl.
  - apply Z.eqb_neq in Hc. now rewrite Hc, IH.
Qed.

Lemma digit_facts (c : Z) :
  ascii_isdigit c = true ->
  is_ascii c = true /\ c <> colon /\ is_linebreak c = false /\ c_isspace c = false
  /\ c <> underscore /\ c <> plus_sign /\ c <> minus_sign /\ 0 <= c - 48 <= 9.
Proof.
  unfold ascii_isdigit, colon, underscore, plus_sign, minus_sign. intro H.
  apply andb_true_iff in H as [H1 H2]. apply Z.leb_le in H1, H2.
  assert (Hall : forallb (fun c => is_ascii c && negb (is_linebreak c) && negb (c_isspace c))
                         (map Z.of_nat (seq 48 10)) = true) by (vm_compute; reflexivity).
  rewrite forallb_forall in Hall.
  assert (Hin : In c (map Z.of_nat (seq 48 10))).
  { rewrite <- (Z2Nat.id c) by lia. apply in_map, in_seq. lia. }
  apply Hall in Hin. apply andb_true_iff in Hin as [Hin Hsp].
  apply andb_true_iff in Hin as [Ha Hlb].
  apply negb_true_iff in Hsp, Hlb. repeat split; try assumption; lia.
Qed.

(** A well-formed record is one line of two fields. *)
Lemma line_of_is_line (rec : pystr * pystr) :
  Spec.well_formed rec ->
  Spec.line_of rec <> [] /\ Forall (fun c => is_linebreak c = false) (Spec.line_of rec).
Proof.
  destruct rec as [s ds]. intros [Hs [_ Hds]]. unfold Spec.line_of; simpl in *. split.
  - destruct s; discriminate.
  - apply Forall_app. split.
    + eapply Forall_impl; [|exact Hs]. now intros c [_ Hc].
    + constructor; [reflexivity|].
      eapply Forall_impl; [|exact Hds]. intros c Hc. now apply digit_facts in Hc.
Qed.

Lemma line_of_fields (rec : pystr * pystr) :
  Spec.well_formed rec ->
  str_split colon (Spec.line_of rec) = [fst rec; snd rec].
Proof.
  destruct rec as [s ds]. intros [Hs [_ Hds]]. unfold Spec.line_of; simpl in *.
  rewrite str_split_first_field.
  - rewrite str_split_no_sep; [reflexivity|].
    eapply Forall_impl; [|exact Hds]. intros c Hc. now apply digit_facts in Hc.
  - eapply Forall_impl; [|exact Hs]. now intros c [Hc _].
Qed.

Lemma body_lines (sep : pystr) (recs : list (pystr * pystr)) :
  Spec.newline sep ->
  Forall Spec.well_formed recs ->
  map (str_split colon) (splitlines (Spec.body_of sep recs))
  = map (fun rec => [fst rec; snd rec]) recs.
Proof.
  intros Hsep Hrecs. unfold Spec.body_of.
  rewrite splitlines_join; [|assumption|].
  - rewrite map_map. apply map_ext_in. intros rec Hin.
    apply line_of_fields. rewrite Forall_forall in Hrecs. now apply Hrecs.
  - apply Forall_map. eapply Forall_impl; [|exact Hrecs].
    intros rec. apply line_of_is_line.
Qed.

(** ** Integer literals *)

Section Literals.
Context {ucd : UnicodeData}.

Lemma int_transform_ascii (s : pystr) :
  Forall (fun c => is_ascii c = true) s -> int_transform s = Some s.
Proof.
  induction 1 as [|c s Hc Hs IH]; [reflexivity|].
  simpl. unfold int_to_ascii. now rewrite Hc, IH.
Qed.

Lemma int_digits_all (ds : pystr) :
  Forall (fun c => ascii_isdigit c = true) ds ->
  forall prev acc n,
    prev <> underscore ->
    exists prev',
      prev' <> underscore /\
      int_digits prev acc n ds
      = Some (fold_left (fun a c => 10 * a + (c - 48)) ds acc,
              (n + List.length ds)%nat, prev', []).
Proof.
  induction 1 as [|c ds Hc Hds IH]; intros prev acc n Hprev.
  - exists prev. split; [assumption|]. cbn [int_digits fold_left List.length].
    now rewrite Nat.add_0_r.
  - cbn [int_digits fold_left List.length]. rewrite Hc.
    destruct (IH c (10 * acc + (c - 48)) (S n)) as (prev' & Hp & Heq).
    + now apply digit_facts in Hc.
    + exists prev'. split; [assumption|]. rewrite Heq. now rewrite Nat.add_succ_r.
Qed.

(** [int] of a run of ASCII digits, no longer than the limit, is its decimal
    value. *)
Lemma py_int_count (ds : pystr) :
  Spec.count_field ds ->
  (List.length ds <= int_max_str_digits)%nat ->
  py_int ds = Some (Spec.decimal_value ds).
Proof.
  intros [Hne Hds] Hlim. unfold py_int.
  rewrite int_transform_ascii
    by (eapply Forall_impl; [|exact Hds]; intros c Hc; now apply digit_facts in Hc).
  destruct ds as [|c ds]; [congruence|].
  pose proof Hds as Hall. inversion Hds as [|? ? Hc _]; subst.
  apply digit_facts in Hc as (_ & _ & _ & Hsp & Hu & Hplus & Hminus & _).
  unfold int_ascii. cbn [skip_space]. rewrite Hsp. cbv zeta. cbn [starts_with].
  apply Z.eqb_neq in Hplus, Hminus. rewrite Hplus, Hminus.
  unfold int_unsigned. cbn [starts_with]. apply Z.eqb_neq in Hu. rewrite Hu.
  destruct (int_digits_all (c :: ds) Hall 0 0 O) as (prev' & Hp & Heq);
    [discriminate|].
  rewrite Heq. apply Z.eqb_neq in Hp. rewrite Hp.
  cbn [orb Nat.add List.length Nat.eqb]. cbn [List.length] in Hlim.
  rewrite (proj2 (Nat.ltb_ge _ _) Hlim). reflexivity.
Qed.

Lemma int_to_ascii_minus (c a : Z) :
  int_to_ascii c = Some a -> a = minus_sign -> c = minus_sign.
Proof.
  unfold int_to_ascii, minus_sign. intros H ->.
  destruct (is_ascii c); [congruence|].
  destruct (uni_isspace c); [discriminate|].
  destruct (uni_todecimal c) as [d|]; [|discriminate].
  destruct ((0 <=? d) && (d <=? 9)) eqn:E; [|discriminate].
  apply andb_true_iff in E as [E _]. apply Z.leb_le in E.
  assert (Hd : 48 + d = 45) by congruence. lia.
Qed.

Lemma int_transform_minus (s a : pystr) :
  int_transform s = Some a -> In minus_sign a -> In minus_sign s.
Proof.
  revert a. induction s as [|c s IH]; intros a H Hin.
  - injection H as <-. contradiction.
  - simpl in H. destruct (int_to_ascii c) as [x|] eqn:Ec; [|discriminate].
    destruct (int_transform s) as [r|]; [|discriminate].
    injection H as <-. destruct Hin as [Hx | Hin].
    + left. now apply (int_to_ascii_minus c x).
    + right. now apply (IH r).
Qed.

Lemma skip_space_incl (s : pystr) (c : Z) : In c (skip_space s) -> In c s.
Proof.
  induction s as [|d s IH]; simpl; [trivial|].
  destruct (c_isspace d); [|trivial]. intro H. right. now apply IH.
Qed.

Lemma int_digits_nonneg (s : pystr) :
  forall prev acc n v m p r,
    int_digits prev acc n s = Some (v, m, p, r) -> 0 <= acc -> 0 <= v.
Proof.
  induction s as [|c s IH]; intros prev acc n v m p r H Hacc; cbn [int_digits] in H.
  - injection H as <- _ _ _. assumption.
  - destruct (ascii_isdigit c) eqn:Ed.
    + apply (IH _ _ _ _ _ _ _ H). apply digit_facts in Ed. lia.
    + destruct (c =? underscore).
      * destruct (prev =? underscore); [discriminate|]. now apply (IH _ _ _ _ _ _ _ H).
      * injection H as <- _ _ _. assumption.
Qed.

Lemma int_unsigned_nonneg (s : pystr) (v : Z) : int_unsigned s = Some v -> 0 <= v.
Proof.
  unfold int_unsigned. destruct (starts_with underscore s); [discriminate|].
  destruct (int_digits 0 0 0 s) as [[[[v' m] p] r]|] eqn:E; [|discriminate].
  destruct ((p =? underscore) || Nat.eqb m 0); [discriminate|].
  destruct (Nat.ltb int_max_str_digits m); [discriminate|].
  destruct (skip_space r); [|discriminate].
  intro H. injection H as <-. apply (int_digits_nonneg _ _ _ _ _ _ _ _ E). lia.
Qed.

(** A literal without a minus sign denotes no negative number. *)
Lemma py_int_nonneg (s : pystr) (v : Z) :
  py_int s = Some v -> ~ In minus_sign s -> 0 <= v.
Proof.
  unfold py_int. destruct (int_transform s) as [a|] eqn:Ea; [|discriminate].
  intros H Hno. unfold int_ascii in H. cbv zeta in H.
  destruct (starts_with plus_sign (skip_space a)).
  - now apply int_unsigned_nonneg in H.
  - destruct (starts_with minus_sign (skip_space a)) eqn:Em.
    + exfalso. apply Hno. apply (int_transform_minus s a Ea).
      apply skip_space_incl. destruct (skip_space a) as [|d r]; [discriminate|].
      simpl in Em. apply Z.eqb_eq in Em. now left.
    + now apply int_unsigned_nonneg in H.
Qed.

End Literals.

(** ** Following redirects *)

Lemma send_following_log (hops : nat) (url : pystr) (t : Z) (svc : Service)
    (log : list Request) :
  send_following hops url t svc log
  = (fst (send_following hops url t svc []),
     log ++ snd (send_following hops url t svc [])).
Proof.
  revert url log. induction hops as [|hops IH]; intros url log;
    cbn [send_following]; destruct (svc (mkRequest url t)) as [r|e|target|text];
    cbn [fst snd app]; try reflexivity.
  rewrite (IH target (log ++ [mkRequest url t])), (IH target [mkRequest url t]).
  cbn [fst snd]. rewrite <- app_assoc. reflexivity.
Qed.

(** A GET sends its request and then only requests that follow redirects,
    [max_redirects] of them at most. *)
Lemma send_following_sent (hops : nat) (url : pystr) (svc : Service) :
  exists followups,
    snd (send_following hops url 10 svc []) = mkRequest url 10 :: followups /\
    Forall (server_chosen svc) followups /\
    (List.length followups <= hops)%nat.
Proof.
  revert url. induction hops as [|hops IH]; intro url; cbn [send_following];
    destruct (svc (mkRequest url 10)) as [r|e|target|text] eqn:Hsvc;
    try (exists []; cbn [snd app List.length]; split; [reflexivity|];
         split; [constructor | lia]).
  rewrite send_following_log. cbn [snd app].
  destruct (IH target) as (more & Hsent & Hchosen & Hlen).
  exists (mkRequest target 10 :: more). rewrite Hsent. split; [reflexivity|]. split.
  - constructor; [|exact Hchosen].
    split; [reflexivity|]. exists (mkRequest url 10). exact Hsvc.
  - cbn [List.length]. lia.
Qed.

Lemma send_following_ext (svc1 svc2 : Service) (hops : nat) (url : pystr) (t : Z)
    (log : list Request) :
  (forall rq, svc1 rq = svc2 rq) ->
  send_following hops url t svc1 log = send_following hops url t svc2 log.
Proof.
  intro Hsvc. revert url log. induction hops as [|hops IH]; intros url log;
    cbn [send_following]; rewrite <- Hsvc;
    destruct (svc1 (mkRequest url t)) as [r|e|target|text]; try reflexivity.
  apply IH.
Qed.

(** The GET raises an exception of [requests], or one that is not. *)
Lemma send_following_raises (hops : nat) (url : pystr) (t : Z) (svc : Service)
    (log : list Request) (e : exn) :
  fst (send_following hops url t svc log) = Raise e ->
  (exists re, e = RequestsError re) \/ (exists text, e = OtherException text).
Proof.
  revert url log. induction hops as [|hops IH]; intros url log;
    cbn [send_following]; destruct (svc (mkRequest url t)) as [r|re|target|text];
    cbn [fst]; intro H; try discriminate H;
    try (injection H as <-; (left; eexists; reflexivity) || (right; eexists; reflexivity)).
  exact (IH _ _ H).
Qed.

(** Without a redirect the GET is the one request and its reply. *)
Lemma get_of_answer (svc : Service) (url : pystr) (r : Response) :
  svc (mkRequest url 10) = Answer r ->
  outcome_of_get svc url = Return r /\ requests_sent svc url = [mkRequest url 10].
Proof.
  intro H. unfold outcome_of_get, requests_sent, requests_get, max_redirects.
  cbn [send_following]. rewrite H. split; reflexivity.
Qed.

Lemma get_of_failure (svc : Service) (url : pystr) (e : RequestException) :
  svc (mkRequest url 10) = Failure e ->
  outcome_of_get svc url = Raise (RequestsError e)
  /\ requests_sent svc url = [mkRequest url 10].
Proof.
  intro H. unfold outcome_of_get, requests_sent, requests_get, max_redirects.
  cbn [send_following]. rewrite H. split; reflexivity.
Qed.

(** ** The breach lookup *)

Section BreachChecker.
Context {ucd : UnicodeData}.
Variable self : PasswordChecker.

(** A password that has no UTF-8 encoding raises before anything is sent. *)
Lemma check_unencodable (password : pystr) (e : exn) (svc : Service) (log : list Request) :
  encode_utf8 password = Raise e ->
  check_pwned_password self password svc log = (Raise e, log).
Proof.
  intro H. unfold check_pwned_password, bind, lift. now rewrite H.
Qed.

(** One call, by cases on what the GET yields. *)
Lemma check_run (password : pystr) (data : list Z) (svc : Service) (log : list Request) :
  encode_utf8 password = Return data ->
  check_pwned_password self password svc log =
    (match outcome_of_get svc (range_url (firstn 5 (sha1_upper data))) with
     | Return r =>
         match http_error_msg r with
         | Some msg =>
             Raise (RuntimeError (ustr "Network error: " ++ msg)
                                 (mkRequestException HTTPError msg))
         | None =>
             scan_hashes (skipn 5 (sha1_upper data))
                         (map (str_split colon) (splitlines (text r)))
         end
     | Raise (RequestsError e) =>
         Raise (RuntimeError (ustr "Network error: " ++ exc_message e) e)
     | Raise other => Raise other
     end,
     log ++ requests_sent svc (range_url (firstn 5 (sha1_upper data)))).
Proof.
  intro H.
  unfold check_pwned_password, bind, lift, try_except_RequestException,
    raise_for_status, raise, ret, outcome_of_get, requests_sent, requests_get.
  rewrite H.
  rewrite (send_following_log max_redirects
             (range_url (firstn 5 (sha1_upper data))) 10 svc log).
  destruct (fst (send_following max_redirects
                   (range_url (firstn 5 (sha1_upper data))) 10 svc []))
    as [r|[c|e|msg ctx|k|text]]; try reflexivity.
  destruct (http_error_msg r); reflexivity.
Qed.

Lemma success_no_http_error (r : Response) :
  Spec.success_status (status_code r) = true -> http_error_msg r = None.
Proof.
  unfold Spec.success_status, http_error_msg. intro H.
  apply andb_true_iff in H as [_ H]. apply Z.ltb_lt in H.
  replace (400 <=? status_code r) with false by (symmetry; apply Z.leb_gt; lia).
  replace (500 <=? status_code r) with false by (symmetry; apply Z.leb_gt; lia).
  reflexivity.
Qed.

Lemma error_status_http_error (r : Response) :
  400 <= status_code r < 600 -> exists msg, http_error_msg r = Some msg.
Proof.
  unfold http_error_msg. intro H.
  destruct ((400 <=? status_code r) && (status_code r <? 500)) eqn:E4; [eauto|].
  replace ((500 <=? status_code r) && (status_code r <? 600)) with true; [eauto|].
  symmetry. apply andb_true_iff.
  apply andb_false_iff in E4 as [E4|E4];
    [apply Z.leb_gt in E4 | apply Z.ltb_ge in E4];
    split; [apply Z.leb_le | apply Z.ltb_lt | apply Z.leb_le | apply Z.ltb_lt]; lia.
Qed.

(** The loop on the lines of a well-formed body. *)
Lemma scan_hashes_records (suffix : pystr) (recs : list (pystr * pystr)) :
  Forall Spec.well_formed recs ->
  (forall ds, In (suffix, ds) recs -> (List.length ds <= int_max_str_digits)%nat) ->
  (exists ds, In (suffix, ds) recs /\
     scan_hashes suffix (map (fun rec => [fst rec; snd rec]) recs)
     = Return (Spec.decimal_value ds))
  \/ ((forall ds, ~ In (suffix, ds) recs) /\
      scan_hashes suffix (map (fun rec => [fst rec; snd rec]) recs) = Return 0).
Proof.
  induction 1 as [|[s ds] recs [_ Hds] Hrecs IH]; intro Hlim.
  - right. split; [intros ds []|reflexivity].
  - cbn [map scan_hashes fst snd]. destruct (pystr_eqb s suffix) eqn:E.
    + apply pystr_eqb_eq in E. subst s. left. exists ds. split; [now left|].
      rewrite (py_int_count ds Hds (Hlim ds (or_introl eq_refl))). reflexivity.
    + destruct IH as [(ds' & Hin & Heq) | (Hno & Heq)];
        [intros ds' Hin; apply Hlim; right; exact Hin | |].
      * left. exists ds'. split; [now right | assumption].
      * right. split; [|assumption].
        intros ds' [Hhd | Htl]; [|now apply (Hno ds')].
        injection Hhd as -> _. rewrite pystr_eqb_refl in E. discriminate.
Qed.

(** The loop never returns a negative number from unsigned count fields. *)
Lemma scan_hashes_nonneg (suffix : pystr) (hashes : list (list pystr)) (n : Z) :
  (forall count, In [suffix; count] hashes -> ~ In minus_sign count) ->
  scan_hashes suffix hashes = Return n -> 0 <= n.
Proof.
  induction hashes as [|fields rest IH]; intros Hno H.
  - simpl in H. injection H as <-. lia.
  - cbn [scan_hashes] in H.
    destruct fields as [|h [|count [|x more]]]; try discriminate.
    destruct (pystr_eqb h suffix) eqn:E.
    + apply pystr_eqb_eq in E. subst h.
      destruct (py_int count) as [v|] eqn:Ev; [|discriminate].
      injection H as <-. apply (py_int_nonneg count v Ev). apply Hno. now left.
    + apply IH; [|assumption]. intros c Hc. apply Hno. now right.
Qed.

(** The loop stops with ValueError at a line it cannot unpack, or at a
    matching line whose count is no integer literal, when no line before it
    matches. *)
Lemma scan_hashes_malformed (suffix : pystr) (pre : list pystr) (bad : pystr) (post : list pystr) :
  Forall (fun line => forall count, str_split colon line <> [suffix; count]) pre ->
  (forall h count, str_split colon bad <> [h; count])
  \/ (exists count, str_split colon bad = [suffix; count] /\ py_int count = None) ->
  exists k,
    scan_hashes suffix (map (str_split colon) (pre ++ bad :: post)) = Raise (ValueError k).
Proof.
  intros Hpre Hbad. induction Hpre as [|line pre Hline Hpre IH].
  - cbn [app map scan_hashes]. destruct Hbad as [Hbad | (count & Hsplit & Hint)].
    + destruct (str_split colon bad) as [|h [|count [|x more]]]; eauto.
      exfalso. now apply (Hbad h count).
    + rewrite Hsplit, pystr_eqb_refl, Hint. eauto.
  - cbn [app map scan_hashes].
    destruct (str_split colon line) as [|h [|count [|x more]]] eqn:E; eauto.
    destruct (pystr_eqb h suffix) eqn:Eh; [|exact IH].
    apply pystr_eqb_eq in Eh. subst h. exfalso. now apply (Hline count).
Qed.

(** C1: of a password, only the first five characters of the uppercase
    hexadecimal SHA-1 of its UTF-8 encoding leave the process.  The call
    sends the range query, whose URL is the fixed base followed by that
    prefix, and after it only requests that follow redirects, to URLs the
    service named; what is sent is a function of the prefix and the service
    alone, so two passwords whose hashes agree on the prefix send the same
    requests to the same service. *)
Theorem request_depends_on_prefix_only
    (p1 p2 : pystr) (d1 d2 : list Z) (svc1 svc2 : Service) (log : list Request) :
  encode_utf8 p1 = Return d1 ->
  encode_utf8 p2 = Return d2 ->
  firstn 5 (sha1_upper d1) = firstn 5 (sha1_upper d2) ->
  (forall rq, svc1 rq = svc2 rq) ->
  let prefix := firstn 5 (sha1_upper d1) in
  List.length prefix = 5%nat /\
  Forall (fun c => Spec.upper_hex c = true) prefix /\
  snd (check_pwned_password self p1 svc1 log) = log ++ requests_sent svc1 (range_url prefix) /\
  (exists followups,
     requests_sent svc1 (range_url prefix) = mkRequest (range_url prefix) 10 :: followups /\
     Forall (server_chosen svc1) followups /\
     (List.length followups <= max_redirects)%nat) /\
  snd (check_pwned_password self p1 svc1 log) = snd (check_pwned_password self p2 svc2 log).
Proof.
  intros H1 H2 Hpre Hsvc prefix. subst prefix.
  rewrite (check_run p1 d1 svc1 log H1), (check_run p2 d2 svc2 log H2). cbn [snd].
  split; [|split; [|split; [|split]]].
  - rewrite length_firstn, sha1_upper_length. reflexivity.
  - apply Forall_forall. intros c Hc.
    apply In_firstn in Hc.
    pose proof (sha1_upper_hex d1) as Hhex. rewrite Forall_forall in Hhex.
    apply Hhex. exact Hc.
  - reflexivity.
  - unfold requests_sent, requests_get. apply send_following_sent.
  - rewrite Hpre. unfold requests_sent, requests_get.
    rewrite (send_following_ext svc1 svc2 _ _ _ _ Hsvc). reflexivity.
Qed.

(** C4, as the code has it: for a password with UTF-8 encoding [data] and a
    successful response whose body is a list of well-formed SUFFIX:COUNT
    lines, those with the computed suffix having counts of 4300 digits at
    most, the hash is the uppercase of the 40 hexadecimal characters of
    SHA-1([data]), cut into a prefix of 5 and a suffix of 35 characters; the
    call returns the count of a record whose suffix field is, character for
    character, the computed suffix, and 0 when there is none. *)
Theorem check_returns_count_of_suffix
    (password : pystr) (data : list Z) (sep : pystr) (recs : list (pystr * pystr))
    (svc : Service) (r : Response) (log : list Request) :
  encode_utf8 password = Return data ->
  let h := sha1_upper data in
  let prefix := firstn 5 h in
  let suffix := skipn 5 h in
  outcome_of_get svc (range_url prefix) = Return r ->
  Spec.success_status (status_code r) = true ->
  Spec.newline sep ->
  Forall Spec.well_formed recs ->
  (forall ds, In (suffix, ds) recs -> (List.length ds <= int_max_str_digits)%nat) ->
  text r = Spec.body_of sep recs ->
  (h = map ascii_upper (Sha1.hexdigest data) /\
   List.length h = 40%nat /\ Forall (fun c => Spec.upper_hex c = true) h /\
   List.length prefix = 5%nat /\ List.length suffix = 35%nat /\ h = prefix ++ suffix) /\
  ((exists ds, In (suffix, ds) recs /\
      fst (check_pwned_password self password svc log) = Return (Spec.decimal_value ds))
   \/ ((forall ds, ~ In (suffix, ds) recs) /\
       fst (check_pwned_password self password svc log) = Return 0)).
Proof.
  intros Henc h prefix suffix Hget Hok Hsep Hrecs Hlim Hbody. subst h prefix suffix. split.
  - split; [apply sha1_upper_map|]. split; [apply sha1_upper_length|].
    split; [apply sha1_upper_hex|].
    rewrite length_firstn, length_skipn, sha1_upper_length.
    split; [reflexivity|]. split; [reflexivity|]. symmetry. apply firstn_skipn.
  - rewrite (check_run password data svc log Henc), Hget. cbn [fst].
    rewrite (success_no_http_error r Hok), Hbody, (body_lines sep recs Hsep Hrecs).
    apply scan_hashes_records; assumption.
Qed.

(** C5, as the code has it: when the GET -- its redirects followed -- raises
    inside [requests] (refused connection, timeout, too many redirects, ...)
    or yields a response with a status in 400..599, the call raises
    RuntimeError whose message is "Network error: " followed by the text of
    the underlying exception, which it carries; it returns no count. *)
Theorem network_failure_raises
    (password : pystr) (data : list Z) (svc : Service) (log : list Request) :
  encode_utf8 password = Return data ->
  let url := range_url (firstn 5 (sha1_upper data)) in
  (forall e, outcome_of_get svc url = Raise (RequestsError e) ->
     fst (check_pwned_password self password svc log)
     = Raise (RuntimeError (ustr "Network error: " ++ exc_message e) e)) /\
  (forall r, outcome_of_get svc url = Return r -> 400 <= status_code r < 600 ->
     exists e, exc_class e = HTTPError /\
       fst (check_pwned_password self password svc log)
       = Raise (RuntimeError (ustr "Network error: " ++ exc_message e) e)) /\
  ((exists e, outcome_of_get svc url = Raise (RequestsError e))
   \/ (exists r, outcome_of_get svc url = Return r /\ 400 <= status_code r < 600) ->
   forall n, fst (check_pwned_password self password svc log) <> Return n).
Proof.
  intros Henc url. subst url. rewrite (check_run password data svc log Henc). cbn [fst].
  split; [|split].
  - intros e He. rewrite He. reflexivity.
  - intros r Hr Hstatus. rewrite Hr.
    destruct (error_status_http_error r Hstatus) as (msg & Hmsg).
    rewrite Hmsg. exists (mkRequestException HTTPError msg). split; reflexivity.
  - intros [(e & He) | (r & Hr & Hstatus)] n.
    + rewrite He. discriminate.
    + rewrite Hr.
      destruct (error_status_http_error r Hstatus) as (msg & Hmsg).
      rewrite Hmsg. discriminate.
Qed.

(** C8, as the code has it: when no line whose suffix field equals the
    computed suffix has a minus sign in its count field, a call that returns
    returns an integer that is at least 0. *)
Theorem returned_count_nonnegative
    (password : pystr) (svc : Service) (log : list Request) (n : Z) :
  (forall data r count,
     encode_utf8 password = Return data ->
     outcome_of_get svc (range_url (firstn 5 (sha1_upper data))) = Return r ->
     In [skipn 5 (sha1_upper data); count] (map (str_split colon) (splitlines (text r))) ->
     ~ In minus_sign count) ->
  fst (check_pwned_password self password svc log) = Return n ->
  0 <= n.
Proof.
  intros Hno H.
  destruct (encode_utf8 password) as [data|e] eqn:Henc.
  - rewrite (check_run password data svc log Henc) in H. cbn [fst] in H.
    destruct (outcome_of_get svc (range_url (firstn 5 (sha1_upper data))))
      as [r|[c|e|msg ctx|k|text]] eqn:Hget; try discriminate H.
    destruct (http_error_msg r); [discriminate H|].
    apply (scan_hashes_nonneg _ _ n) in H; [assumption|].
    intros count Hin. apply (Hno data r count); [reflexivity | exact Hget | exact Hin].
  - rewrite (check_unencodable password e svc log Henc) in H. discriminate H.
Qed.

(** C9: on a response of status 200, when the body has a line that does not
    split on ':' into exactly two fields, or a line with the computed suffix
    whose count field is no integer literal, and no line before it has the
    computed suffix, the call raises ValueError (from the unpacking or from
    [int]) -- not the RuntimeError of a network failure -- and returns no
    count. *)
Theorem malformed_body_raises_value_error
    (password : pystr) (data : list Z) (svc : Service) (r : Response)
    (log : list Request) (pre : list pystr) (bad : pystr) (post : list pystr) :
  encode_utf8 password = Return data ->
  let suffix := skipn 5 (sha1_upper data) in
  outcome_of_get svc (range_url (firstn 5 (sha1_upper data))) = Return r ->
  status_code r = 200 ->
  splitlines (text r) = pre ++ bad :: post ->
  Forall (fun line => forall count, str_split colon line <> [suffix; count]) pre ->
  (forall h count, str_split colon bad <> [h; count])
  \/ (exists count, str_split colon bad = [suffix; count] /\ py_int count = None) ->
  (exists k, fst (check_pwned_password self password svc log) = Raise (ValueError k)) /\
  (forall msg ctx, fst (check_pwned_password self password svc log) <> Raise (RuntimeError msg ctx)) /\
  (forall n, fst (check_pwned_password self password svc log) <> Return n).
Proof.
  intros Henc suffix Hget Hstatus Hlines Hpre Hbad. subst suffix.
  rewrite (check_run password data svc log Henc), Hget. cbn [fst].
  rewrite success_no_http_error by (rewrite Hstatus; reflexivity).
  rewrite Hlines.
  destruct (scan_hashes_malformed _ pre bad post Hpre Hbad) as (k & Hk).
  rewrite Hk. split; [eauto|]. split; [discriminate | discriminate].
Qed.

(** C10: the result of [score_password] is fixed by the checker and the
    string; the result of [check_pwned_password] is fixed by the checker, the
    string and the service's answers, whatever was sent before -- so a second
    call, made after the first, yields the first call's result. *)
Theorem calls_are_repeatable
    (password : pystr) (svc1 svc2 : Service) (log1 log2 : list Request) :
  (forall rq, svc1 rq = svc2 rq) ->
  (forall first second,
     first = score_password self password ->
     second = score_password self password -> first = second) /\
  fst (check_pwned_password self password svc1 log1)
  = fst (check_pwned_password self password svc2 log2) /\
  fst (check_pwned_password self password svc1 log1)
  = fst (check_pwned_password self password svc2
           (snd (check_pwned_password self password svc1 log1))).
Proof.
  intro Hsvc. split; [intros; congruence|].
  assert (H : forall la lb,
             fst (check_pwned_password self password svc1 la)
             = fst (check_pwned_password self password svc2 lb)).
  { intros la lb. destruct (encode_utf8 password) as [data|e] eqn:Henc.
    - rewrite !(check_run password data _ _ Henc). cbn [fst].
      unfold outcome_of_get, requests_get.
      rewrite (send_following_ext svc1 svc2 _ _ _ _ Hsvc). reflexivity.
    - rewrite !(check_unencodable password e _ _ Henc). reflexivity. }
  split; apply H.
Qed.

End BreachChecker.

(** ** The theorems at concrete inputs *)

Lemma abc_not_common : ~ Spec.in_common_set (ucd := ascii_only) new_PasswordChecker (ustr "abc").
Proof.
  intro H. apply (is_generic_password_spec (ucd := ascii_only)) in H.
  vm_compute in H. discriminate H.
Defined.

Lemma abcdeD1_not_common : ~ Spec.in_common_set (ucd := ascii_only) new_PasswordChecker (ustr "abcdeD1!").
Proof.
  intro H. apply (is_generic_password_spec (ucd := ascii_only)) in H.
  vm_compute in H. discriminate H.
Defined.

(** "pw2001" and "pw2501" both hash to DC0A5...: at a service that has
    moved, each sends the range query and the request that follows the
    redirect, the same two. *)
Lemma request_depends_on_prefix_only_witness :
  firstn 5 (sha1_upper (ucd := ascii_only) (ustr "pw2001")) = ustr "DC0A5" /\
  firstn 5 (sha1_upper (ucd := ascii_only) (ustr "pw2501")) = ustr "DC0A5" /\
  snd (check_pwned_password (ucd := ascii_only) new_PasswordChecker (ustr "pw2001")
         (mock_moved moved_to 200 []) [])
  = [mkRequest (ustr "https://api.pwnedpasswords.com/range/DC0A5") 10;
     mkRequest moved_to 10] /\
  snd (check_pwned_password (ucd := ascii_only) new_PasswordChecker (ustr "pw2001")
         (mock_moved moved_to 200 []) [])
  = snd (check_pwned_password (ucd := ascii_only) new_PasswordChecker (ustr "pw2501")
           (mock_moved moved_to 200 []) []).
Proof.
  split; [vm_compute; reflexivity|]. split; [vm_compute; reflexivity|].
  destruct (@request_depends_on_prefix_only ascii_only new_PasswordChecker
              (ustr "pw2001") (ustr "pw2501") (ustr "pw2001") (ustr "pw2501")
              (mock_moved moved_to 200 []) (mock_moved moved_to 200 []) [])
    as (_ & _ & Hsent & _ & Hsame);
    [vm_compute; reflexivity | vm_compute; reflexivity | vm_compute; reflexivity
    | intro rq; reflexivity |].
  split; [|exact Hsame].
  eapply eq_trans; [exact Hsent | vm_compute; reflexivity].
Defined.

Lemma score_is_bonus_plus_classes_witness :
  exists b u l d s,
    Spec.length_bonus (ustr "abc") b /\
    Spec.indicator (Spec.contains (isupper (ucd := ascii_only)) (ustr "abc")) u /\
    Spec.indicator (Spec.contains (islower (ucd := ascii_only)) (ustr "abc")) l /\
    Spec.indicator (Spec.contains (isdigit (ucd := ascii_only)) (ustr "abc")) d /\
    Spec.indicator (Spec.contains Spec.ascii_punctuation (ustr "abc")) s /\
    score_password (ucd := ascii_only) new_PasswordChecker (ustr "abc")
    = b + 2 * u + 2 * l + 2 * d + 2 * s.
Proof.
  exact (proj1 (@score_is_bonus_plus_classes ascii_only new_PasswordChecker
                  (ustr "abc") abc_not_common)).
Defined.

Lemma common_password_scores_zero_witness :
  score_password (ucd := ascii_only) new_PasswordChecker (ustr "PassWord") = 0.
Proof.
  apply (@common_password_scores_zero ascii_only new_PasswordChecker
           (ustr "PassWord") (ustr "password")).
  - simpl. right. left. reflexivity.
  - vm_compute. reflexivity.
Defined.

Lemma score_monotone_witness :
  score_password (ucd := ascii_only) new_PasswordChecker (ustr "abc")
  <= score_password (ucd := ascii_only) new_PasswordChecker (ustr "abcdeD1!").
Proof.
  apply (@score_monotone ascii_only new_PasswordChecker (ustr "abc") (ustr "abcdeD1!")
           abc_not_common abcdeD1_not_common).
  unfold Spec.checks_included.
  repeat split; intros _;
    first [ apply existsb_contains; vm_compute; reflexivity | vm_compute; discriminate ].
Defined.

Lemma sample_records_well_formed : Forall (Spec.well_formed) sample_records.
Proof.
  unfold sample_records, Spec.well_formed, Spec.suffix_field, Spec.count_field.
  repeat constructor; simpl; try discriminate.
Defined.

Lemma check_returns_count_of_suffix_witness :
  skipn 5 (sha1_upper (ucd := ascii_only) (ustr "password"))
  = ustr "1E4C9B93F3F0682250B6CF8331B7EE68FD8" /\
  ((exists ds,
      In (skipn 5 (sha1_upper (ucd := ascii_only) (ustr "password")), ds) sample_records /\
      fst (check_pwned_password (ucd := ascii_only) new_PasswordChecker (ustr "password")
             (mock 200 (Spec.body_of [13; 10] sample_records)) [])
      = Return (Spec.decimal_value ds))
   \/ ((forall ds,
          ~ In (skipn 5 (sha1_upper (ucd := ascii_only) (ustr "password")), ds) sample_records) /\
       fst (check_pwned_password (ucd := ascii_only) new_PasswordChecker (ustr "password")
              (mock 200 (Spec.body_of [13; 10] sample_records)) [])
       = Return 0)).
Proof.
  split; [vm_compute; reflexivity|].
  refine (proj2 (@check_returns_count_of_suffix ascii_only new_PasswordChecker
                   (ustr "password") (ustr "password") [13; 10] sample_records
                   (mock 200 (Spec.body_of [13; 10] sample_records))
                   (mkResponse 200 (ustr "")
                      (ustr "https://api.pwnedpasswords.com/range/5BAA6")
                      (Spec.body_of [13; 10] sample_records)) []
                   _ _ _ _ sample_records_well_formed _ _)).
  - vm_compute. reflexivity.
  - vm_compute. reflexivity.
  - reflexivity.
  - right. reflexivity.
  - intros ds Hin. apply in_map with (f := snd) in Hin. cbn [snd] in Hin.
    cbv [sample_records map snd] in Hin.
    destruct Hin as [<- | [<- | [<- | []]]]; apply Nat.leb_le; vm_compute; reflexivity.
  - reflexivity.
Defined.

(** A well-formed record with the computed suffix and a count of 4301
    digits: [int] refuses the count, and the call raises ValueError. *)
Lemma count_beyond_limit_raises :
  Forall Spec.well_formed
    [(ustr "1E4C9B93F3F0682250B6CF8331B7EE68FD8", repeat 57 4301)] /\
  skipn 5 (sha1_upper (ucd := ascii_only) (ustr "password"))
  = ustr "1E4C9B93F3F0682250B6CF8331B7EE68FD8" /\
  check_pwned_password (ucd := ascii_only) new_PasswordChecker (ustr "password")
    (mock 200 (Spec.body_of [10]
                 [(ustr "1E4C9B93F3F0682250B6CF8331B7EE68FD8", repeat 57 4301)])) []
  = (Raise (ValueError (InvalidLiteral (repeat 57 4301))),
     [mkRequest (ustr "https://api.pwnedpasswords.com/range/5BAA6") 10]).
Proof.
  split; [|split; vm_compute; reflexivity].
  constructor; [|constructor]. split.
  - unfold Spec.suffix_field. cbn [fst]. apply Forall_forall. intros c Hc.
    vm_compute in Hc.
    repeat (destruct Hc as [<- | Hc]; [split; [discriminate | reflexivity]|]).
    destruct Hc.
  - split; [discriminate|]. cbn [snd]. apply Forall_forall. intros c Hc.
    apply repeat_spec in Hc. subst c. reflexivity.
Qed.

Lemma network_failure_raises_witness :
  fst (check_pwned_password (ucd := ascii_only) new_PasswordChecker (ustr "password")
         (mock_failure connection_refused) [])
  = Raise (RuntimeError (ustr "Network error: Connection refused") connection_refused)
  /\ exists e, exc_class e = HTTPError /\
       fst (check_pwned_password (ucd := ascii_only) new_PasswordChecker (ustr "password")
              (mock 503 []) [])
       = Raise (RuntimeError (ustr "Network error: " ++ exc_message e) e).
Proof.
  split.
  - refine (proj1 (@network_failure_raises ascii_only new_PasswordChecker
                     (ustr "password") (ustr "password")
                     (mock_failure connection_refused) [] _) connection_refused _).
    + vm_compute. reflexivity.
    + vm_compute. reflexivity.
  - refine (proj1 (proj2 (@network_failure_raises ascii_only new_PasswordChecker
                            (ustr "password") (ustr "password") (mock 503 []) [] _))
                  (mkResponse 503 (ustr "")
                     (ustr "https://api.pwnedpasswords.com/range/5BAA6") []) _ _).
    + vm_compute. reflexivity.
    + vm_compute. reflexivity.
    + simpl. lia.
Defined.

(** Status 304 is no success, and the call returns 0. *)
Lemma not_modified_returns_zero :
  Spec.success_status 304 = false /\
  check_pwned_password (ucd := ascii_only) new_PasswordChecker (ustr "password")
    (mock 304 []) []
  = (Return 0, [mkRequest (ustr "https://api.pwnedpasswords.com/range/5BAA6") 10]).
Proof. split; vm_compute; reflexivity. Qed.

(** A count field "-5" on the matching line is returned as -5. *)
Lemma negative_count_is_returned :
  check_pwned_password (ucd := ascii_only) new_PasswordChecker (ustr "password")
    (mock 200 (ustr "1E4C9B93F3F0682250B6CF8331B7EE68FD8:-5")) []
  = (Return (-5), [mkRequest (ustr "https://api.pwnedpasswords.com/range/5BAA6") 10])
  /\ ~ 0 <= -5.
Proof. split; [vm_compute; reflexivity | lia]. Qed.

Lemma returned_count_nonnegative_witness :
  0 <= 3861493.
Proof.
  apply (@returned_count_nonnegative ascii_only new_PasswordChecker (ustr "password")
           (mock 200 (Spec.body_of [13; 10] sample_records)) [] 3861493).
  - intros data r count Henc Hsvc Hin.
    vm_compute in Henc. injection Henc as <-.
    vm_compute in Hsvc. injection Hsvc as <-.
    vm_compute in Hin.
    destruct Hin as [Hin | [Hin | [Hin | []]]]; try discriminate Hin.
    injection Hin as <-. vm_compute. intuition discriminate.
  - vm_compute. reflexivity.
Defined.

Lemma malformed_body_raises_value_error_witness :
  exists k,
    fst (check_pwned_password (ucd := ascii_only) new_PasswordChecker (ustr "password")
           (mock 200 sample_error_page) [])
    = Raise (ValueError k).
Proof.
  refine (proj1 (@malformed_body_raises_value_error ascii_only new_PasswordChecker
                   (ustr "password") (ustr "password") (mock 200 sample_error_page)
                   (mkResponse 200 (ustr "")
                      (ustr "https://api.pwnedpasswords.com/range/5BAA6")
                      sample_error_page) []
                   [ustr "0018A45C4D1DEF81644B54AB7F969B88D65:1"]
                   (ustr "<html>Service Unavailable</html>")
                   [ustr "1E4C9B93F3F0682250B6CF8331B7EE68FD8:3861493"]
                   _ _ eq_refl _ _ _)).
  - vm_compute. reflexivity.
  - vm_compute. reflexivity.
  - vm_compute. reflexivity.
  - constructor; [|constructor]. intros count H. vm_compute in H. discriminate H.
  - left. intros h count H. vm_compute in H. discriminate H.
Defined.

Lemma calls_are_repeatable_witness :
  fst (check_pwned_password (ucd := ascii_only) new_PasswordChecker (ustr "password")
         (mock 200 (Spec.body_of [10] sample_records)) [])
  = fst (check_pwned_password (ucd := ascii_only) new_PasswordChecker (ustr "password")
           (mock 200 (Spec.body_of [10] sample_records))
           (snd (check_pwned_password (ucd := ascii_only) new_PasswordChecker (ustr "password")
                   (mock 200 (Spec.body_of [10] sample_records)) []))).
Proof.
  refine (proj2 (proj2 (@calls_are_repeatable ascii_only new_PasswordChecker
                          (ustr "password") _ _ [] [] _))).
  intro rq. reflexivity.
Defined.

(** ** Further properties of the code *)

Section Further.
Context {ucd : UnicodeData}.
Variable self : PasswordChecker.

(** X1: a password holding a code point that UTF-8 cannot encode (a lone
    surrogate) makes the call raise UnicodeEncodeError, and nothing is sent. *)
Theorem unencodable_password_sends_nothing
    (password : pystr) (c : Z) (svc : Service) (log : list Request) :
  Utf8.encode password = inl c ->
  check_pwned_password self password svc log = (Raise (UnicodeEncodeError c), log).
Proof.
  intro H. apply check_unencodable. unfold encode_utf8. rewrite H. reflexivity.
Qed.

Lemma scan_hashes_first (suffix ds : pystr) (pre post : list (pystr * pystr)) :
  Forall Spec.well_formed pre ->
  Spec.count_field ds ->
  (List.length ds <= int_max_str_digits)%nat ->
  (forall ds', ~ In (suffix, ds') pre) ->
  scan_hashes suffix (map (fun rec => [fst rec; snd rec]) (pre ++ (suffix, ds) :: post))
  = Return (Spec.decimal_value ds).
Proof.
  intros Hpre Hds Hlim Hno. induction Hpre as [|[s d] pre _ Hpre IH].
  - cbn [app map scan_hashes fst snd]. rewrite pystr_eqb_refl.
    rewrite (py_int_count ds Hds Hlim). reflexivity.
  - cbn [app map scan_hashes fst snd]. destruct (pystr_eqb s suffix) eqn:E.
    + apply pystr_eqb_eq in E. subst s. exfalso. apply (Hno d). left. reflexivity.
    + apply IH. intros ds' Hin. apply (Hno ds'). right. exact Hin.
Qed.

(** X2: when several records carry the computed suffix, the count returned
    is the one of the first (a count of 4300 digits at most, which [int]
    reads); the counts of the later ones are not read. *)
Theorem first_matching_record_wins
    (password : pystr) (data : list Z) (sep ds : pystr) (pre post : list (pystr * pystr))
    (svc : Service) (r : Response) (log : list Request) :
  encode_utf8 password = Return data ->
  let suffix := skipn 5 (sha1_upper data) in
  outcome_of_get svc (range_url (firstn 5 (sha1_upper data))) = Return r ->
  Spec.success_status (status_code r) = true ->
  Spec.newline sep ->
  Forall Spec.well_formed (pre ++ (suffix, ds) :: post) ->
  (List.length ds <= int_max_str_digits)%nat ->
  (forall ds', ~ In (suffix, ds') pre) ->
  text r = Spec.body_of sep (pre ++ (suffix, ds) :: post) ->
  fst (check_pwned_password self password svc log) = Return (Spec.decimal_value ds).
Proof.
  intros Henc suffix Hget Hok Hsep Hrecs Hlim Hno Hbody. subst suffix.
  rewrite (check_run self password data svc log Henc), Hget. cbn [fst].
  rewrite (success_no_http_error r Hok), Hbody, (body_lines sep _ Hsep Hrecs).
  apply Forall_app in Hrecs as [Hpre Hrest].
  pose proof (Forall_inv Hrest) as [_ Hds].
  apply scan_hashes_first; [exact Hpre | exact Hds | exact Hlim | exact Hno].
Qed.

End Further.

Lemma str_lower_ascii (ucd1 ucd2 : UnicodeData) (s : pystr) :
  forallb is_ascii s = true -> str_lower (ucd := ucd1) s = str_lower (ucd := ucd2) s.
Proof. intro H. unfold str_lower. rewrite H. reflexivity. Qed.

Lemma existsb_ascii (f g : Z -> bool) (s : pystr) :
  forallb is_ascii s = true ->
  (forall c, is_ascii c = true -> f c = g c) ->
  existsb f s = existsb g s.
Proof.
  intros Hs Hfg. induction s as [|c s IH]; [reflexivity|].
  simpl in Hs. apply andb_true_iff in Hs as [Hc Hs].
  simpl. rewrite (Hfg c Hc), (IH Hs). reflexivity.
Qed.

(** X3: on an ASCII password the score of the constructed checker does not
    depend on the Unicode database. *)
Theorem score_of_ascii_reads_no_table (ucd1 ucd2 : UnicodeData) (password : pystr) :
  forallb is_ascii password = true ->
  score_password (ucd := ucd1) new_PasswordChecker password
  = score_password (ucd := ucd2) new_PasswordChecker password.
Proof.
  intro H. unfold score_password, is_generic_password.
  rewrite (str_lower_ascii ucd1 ucd2 password H).
  replace (map (str_lower (ucd := ucd1)) (common_passwords new_PasswordChecker))
    with (map (str_lower (ucd := ucd2)) (common_passwords new_PasswordChecker))
    by (apply map_ext_in; intros q Hq; apply str_lower_ascii;
        simpl in Hq; repeat (destruct Hq as [<- | Hq]; [reflexivity|]); contradiction).
  rewrite (existsb_ascii (isupper (ucd := ucd1)) (isupper (ucd := ucd2)) password H)
    by (intros c Hc; unfold isupper; now rewrite Hc).
  rewrite (existsb_ascii (islower (ucd := ucd1)) (islower (ucd := ucd2)) password H)
    by (intros c Hc; unfold islower; now rewrite Hc).
  rewrite (existsb_ascii (isdigit (ucd := ucd1)) (isdigit (ucd := ucd2)) password H)
    by (intros c Hc; unfold isdigit; now rewrite Hc).
  reflexivity.
Qed.

Lemma unencodable_password_sends_nothing_witness :
  check_pwned_password (ucd := ascii_only) new_PasswordChecker [97; 0xDC80] (mock 200 []) []
  = (Raise (UnicodeEncodeError 0xDC80), []).
Proof.
  apply (@unencodable_password_sends_nothing ascii_only new_PasswordChecker
           [97; 0xDC80] 0xDC80 (mock 200 []) []).
  vm_compute. reflexivity.
Defined.

Lemma first_matching_record_wins_witness :
  fst (check_pwned_password (ucd := ascii_only) new_PasswordChecker (ustr "password")
         (mock 200 (Spec.body_of [10]
            [(ustr "0018A45C4D1DEF81644B54AB7F969B88D65", ustr "1");
             (ustr "1E4C9B93F3F0682250B6CF8331B7EE68FD8", ustr "7");
             (ustr "1E4C9B93F3F0682250B6CF8331B7EE68FD8", ustr "9")])) [])
  = Return 7.
Proof.
  refine (@first_matching_record_wins ascii_only new_PasswordChecker
            (ustr "password") (ustr "password") [10] (ustr "7")
            [(ustr "0018A45C4D1DEF81644B54AB7F969B88D65", ustr "1")]
            [(ustr "1E4C9B93F3F0682250B6CF8331B7EE68FD8", ustr "9")]
            (mock 200 (Spec.body_of [10]
               [(ustr "0018A45C4D1DEF81644B54AB7F969B88D65", ustr "1");
                (ustr "1E4C9B93F3F0682250B6CF8331B7EE68FD8", ustr "7");
                (ustr "1E4C9B93F3F0682250B6CF8331B7EE68FD8", ustr "9")]))
            (mkResponse 200 (ustr "") (ustr "https://api.pwnedpasswords.com/range/5BAA6")
               (Spec.body_of [10]
                  [(ustr "0018A45C4D1DEF81644B54AB7F969B88D65", ustr "1");
                   (ustr "1E4C9B93F3F0682250B6CF8331B7EE68FD8", ustr "7");
                   (ustr "1E4C9B93F3F0682250B6CF8331B7EE68FD8", ustr "9")]))
            [] _ _ _ _ _ _ _ _).
  - vm_compute. reflexivity.
  - vm_compute. reflexivity.
  - reflexivity.
  - left. reflexivity.
  - vm_compute.
    unfold Spec.well_formed, Spec.suffix_field, Spec.count_field.
    repeat constructor; simpl; try discriminate.
  - apply Nat.leb_le. vm_compute. reflexivity.
  - intros ds' [H | []]. vm_compute in H. discriminate H.
  - vm_compute. reflexivity.
Defined.

Lemma score_of_ascii_reads_no_table_witness :
  score_password (ucd := ascii_only) new_PasswordChecker (ustr "Tr0ub4dor&3")
  = score_password
      (ucd := {| uni_lower := fun s => s; uni_upper := fun s => s;
                 uni_isupper := fun _ => true; uni_islower := fun _ => true;
                 uni_isdigit := fun _ => true; uni_isspace := fun _ => true;
                 uni_todecimal := fun _ => Some 0 |})
      new_PasswordChecker (ustr "Tr0ub4dor&3").
Proof.
  apply (@score_of_ascii_reads_no_table ascii_only _ (ustr "Tr0ub4dor&3")).
  vm_compute. reflexivity.
Defined.

(** ** The scorer, further *)

Example strip_ex :
  map (strip (ucd := ascii_only))
      [ustr "  a b  "; [9; 28; 97; 31; 10]; ustr "   "; []; ustr "x"; [160; 97]]
  = [ustr "a b"; ustr "a"; []; []; ustr "x"; [160; 97]].
Proof. vm_compute. reflexivity. Qed.

Example main_ex :
  main (ucd := ascii_only) no_text (mock 200 (Spec.body_of [13; 10] sample_records))
       [ustr " 1 "; ustr "Tr0ub4dor&3"; ustr "9"; ustr "2"; ustr " password"; ustr "3"; ustr "1"]
  = (show_menu
       ++ [choice_prompt;
           Print ([10] ++ ustr "You selected: Analyze Password Strength" ++ [10]);
           Prompt (ustr "Enter the password to analyze: ");
           Print ([10] ++ ustr "Password Score: 10 / 10");
           Print (ustr "Result: Strong password. Well done!");
           Print []]
       ++ show_menu ++ [choice_prompt; Print msg_invalid]
       ++ show_menu
       ++ [choice_prompt;
           Print ([10] ++ ustr "You selected: Has My Password Been Leaked?" ++ [10]);
           Prompt (ustr "Enter the password to check: ");
           Print ([10] ++ ustr "[!] Warning: Your password has been found 3861493 times in data breaches!");
           Print (ustr "You should consider changing it to something more secure." ++ [10])]
       ++ show_menu ++ [choice_prompt; Print msg_exiting],
     [mkRequest (ustr "https://api.pwnedpasswords.com/range/5BAA6") 10],
     Exited).
Proof. vm_compute. reflexivity. Qed.

Example main_eof_ex :
  ending_of (main (ucd := ascii_only) no_text (mock_failure connection_refused)
               [ustr "2"; ustr "hunter2"; ustr "1"])
  = EOFError.
Proof. vm_compute. reflexivity. Qed.

Section ScorerFurther.
Context {ucd : UnicodeData}.
Variable self : PasswordChecker.

Lemma existsb_inside (f : Z -> bool) (a p b : pystr) :
  (if existsb f p then 1 else 0) <= (if existsb f (a ++ p ++ b) then 1 else 0).
Proof.
  rewrite !existsb_app. destruct (existsb f p).
  - rewrite orb_true_l, orb_true_r. lia.
  - destruct (existsb f a || (false || existsb f b)); lia.
Qed.

(** X4: characters added in front of a password or after it never lower
    its score, as long as the longer string is not a common password. *)
Theorem score_never_drops_when_extended (a p b : pystr) :
  is_generic_password self p = false ->
  is_generic_password self (a ++ p ++ b) = false ->
  score_password self p <= score_password self (a ++ p ++ b).
Proof.
  intros Hp Hr. rewrite !score_password_sum by assumption.
  pose proof (existsb_inside isupper a p b).
  pose proof (existsb_inside islower a p b).
  pose proof (existsb_inside isdigit a p b).
  pose proof (existsb_inside in_symbols a p b).
  assert (Hlen : len p <= len (a ++ p ++ b)).
  { unfold len. rewrite !length_app. lia. }
  assert ((if 8 <=? len p then 2 else if 5 <=? len p then 1 else 0)
          <= (if 8 <=? len (a ++ p ++ b) then 2
              else if 5 <=? len (a ++ p ++ b) then 1 else 0)).
  { destruct (8 <=? len p) eqn:P8, (8 <=? len (a ++ p ++ b)) eqn:Q8,
      (5 <=? len p) eqn:P5, (5 <=? len (a ++ p ++ b)) eqn:Q5; try lia;
      repeat match goal with
             | H : (_ <=? _) = true |- _ => apply Z.leb_le in H
             | H : (_ <=? _) = false |- _ => apply Z.leb_gt in H
             end; lia. }
  lia.
Qed.

Lemma verdict_strong (s : Z) : verdict s = msg_strong <-> 7 < s.
Proof.
  unfold verdict.
  destruct (s =? 0) eqn:E0; [apply Z.eqb_eq in E0 | apply Z.eqb_neq in E0].
  - split; [|lia]. intro H. apply pystr_eqb_eq in H. vm_compute in H. discriminate H.
  - destruct (s <=? 4) eqn:E4; [apply Z.leb_le in E4 | apply Z.leb_gt in E4].
    + split; [|lia]. intro H. apply pystr_eqb_eq in H. vm_compute in H. discriminate H.
    + destruct (s <=? 7) eqn:E7; [apply Z.leb_le in E7 | apply Z.leb_gt in E7].
      * split; [|lia]. intro H. apply pystr_eqb_eq in H. vm_compute in H. discriminate H.
      * split; [lia | reflexivity].
Qed.

Lemma verdict_too_common (s : Z) : verdict s = msg_too_common <-> s = 0.
Proof.
  unfold verdict.
  destruct (s =? 0) eqn:E0; [apply Z.eqb_eq in E0 | apply Z.eqb_neq in E0].
  - split; [intros _; exact E0 | reflexivity].
  - split; [|intro H; contradiction].
    intro H. exfalso.
    destruct (s <=? 4); [|destruct (s <=? 7)];
      apply pystr_eqb_eq in H; vm_compute in H; discriminate H.
Qed.

Lemma score_by_classes (password : pystr) :
  is_generic_password self password = false ->
  score_password self password
  = (if 8 <=? len password then 2 else if 5 <=? len password then 1 else 0)
    + 2 * classes_present password.
Proof.
  intro H. rewrite (score_password_sum self password H). unfold classes_present. lia.
Qed.

Lemma classes_present_range (password : pystr) : 0 <= classes_present password <= 4.
Proof.
  unfold classes_present.
  destruct (existsb isupper password), (existsb islower password),
    (existsb isdigit password), (existsb in_symbols password); lia.
Qed.

(** X5: the program calls a password "Strong" exactly when it is not a
    common password and either holds all four character classes, or holds
    three of them and has eight characters or more. *)
Theorem strong_verdict_by_classes (password : pystr) :
  verdict (score_password self password) = msg_strong <->
  is_generic_password self password = false /\
  (classes_present password = 4 \/
   (classes_present password = 3 /\ 8 <= len password)).
Proof.
  rewrite verdict_strong.
  pose proof (classes_present_range password) as Hc.
  destruct (is_generic_password self password) eqn:Hg.
  - unfold score_password. rewrite Hg. split; [lia | intros [H _]; discriminate H].
  - rewrite (score_by_classes password Hg).
    destruct (8 <=? len password) eqn:E8; [apply Z.leb_le in E8 | apply Z.leb_gt in E8].
    + split; [intro H; split; [reflexivity | lia] | intros [_ H]; lia].
    + destruct (5 <=? len password) eqn:E5;
        (split; [intro H; split; [reflexivity | lia] | intros [_ H]; lia]).
Qed.

(** X6: the program calls a password "too common or weak" exactly when it
    is a common password, or has fewer than five characters and none of an
    uppercase letter, a lowercase letter, a digit and a punctuation mark. *)
Theorem too_common_verdict_by_classes (password : pystr) :
  verdict (score_password self password) = msg_too_common <->
  is_generic_password self password = true \/
  (len password < 5 /\ classes_present password = 0).
Proof.
  rewrite verdict_too_common.
  pose proof (classes_present_range password) as Hc.
  destruct (is_generic_password self password) eqn:Hg.
  - unfold score_password. rewrite Hg. split; intros _; [left|]; reflexivity.
  - rewrite (score_by_classes password Hg).
    destruct (8 <=? len password) eqn:E8; [apply Z.leb_le in E8 | apply Z.leb_gt in E8].
    + split; [intro H; lia | intros [H | [H _]]; [discriminate H | lia]].
    + destruct (5 <=? len password) eqn:E5;
        [apply Z.leb_le in E5 | apply Z.leb_gt in E5].
      * split; [intro H; lia | intros [H | [H _]]; [discriminate H | lia]].
      * split; [intro H; right; lia | intros [H | [_ H]]; [discriminate H | lia]].
Qed.

End ScorerFurther.

(** ** The constructor's list *)

Section CommonList.
Context {ucd : UnicodeData}.

Lemma str_lower_of_ascii (s : pystr) :
  forallb is_ascii s = true -> str_lower s = map ascii_lower s.
Proof. intro H. unfold str_lower. rewrite H. reflexivity. Qed.

Lemma ascii_lower_alnum (c : Z) :
  ascii_isalnum (ascii_lower c) = true -> ascii_isalnum c = true.
Proof.
  unfold ascii_lower. destruct (ascii_isupper c) eqn:E; [|trivial].
  intros _. unfold ascii_isalnum. rewrite E. reflexivity.
Qed.

(** The entries, lowercased, are alphanumeric and have 4 to 10 characters. *)
Lemma lowered_entries_shape (q : pystr) :
  In q (map str_lower (common_passwords new_PasswordChecker)) ->
  forallb ascii_isalnum q = true /\ 4 <= len q <= 10.
Proof.
  intro H.
  assert (Hall : forallb (fun q => forallb ascii_isalnum q && (4 <=? len q) && (len q <=? 10))
                         (map str_lower (common_passwords new_PasswordChecker)) = true)
    by (vm_compute; reflexivity).
  rewrite forallb_forall in Hall. apply Hall in H.
  apply andb_true_iff in H as [H H10]. apply andb_true_iff in H as [Ha H4].
  apply Z.leb_le in H4, H10. split; [assumption | lia].
Qed.

Lemma generic_ascii_shape (password : pystr) :
  forallb is_ascii password = true ->
  is_generic_password new_PasswordChecker password = true ->
  forallb ascii_isalnum password = true /\ 4 <= len password <= 10.
Proof.
  intros Hascii Hg. unfold is_generic_password in Hg.
  apply existsb_exists in Hg as (q & Hq & Heq).
  apply pystr_eqb_eq in Heq. rewrite (str_lower_of_ascii password Hascii) in Heq.
  apply lowered_entries_shape in Hq as [Halnum Hlen].
  rewrite <- Heq in Halnum, Hlen. split.
  - apply forallb_forall. intros c Hc. apply ascii_lower_alnum.
    rewrite forallb_forall in Halnum. apply Halnum. apply in_map. exact Hc.
  - unfold len in *. rewrite length_map in Hlen. exact Hlen.
Qed.

(** X7: a password of ASCII characters that the constructed checker treats
    as common is made of letters and digits only and has 4 to 10
    characters; so an ASCII password with any other character, or shorter
    or longer, is never scored 0 for being common. *)
Theorem common_ascii_password_shape (password : pystr) :
  forallb is_ascii password = true ->
  is_generic_password new_PasswordChecker password = true ->
  forallb ascii_isalnum password = true /\ 4 <= len password <= 10.
Proof. exact (generic_ascii_shape password). Qed.

Lemma symbol_not_alnum (c : Z) : in_symbols c = true -> ascii_isalnum c = false.
Proof.
  rewrite in_symbols_punctuation. unfold Spec.ascii_punctuation. intro H.
  apply andb_true_iff in H as [_ H]. apply negb_true_iff in H. exact H.
Qed.

Lemma symbol_not_common (password : pystr) :
  forallb is_ascii password = true ->
  existsb in_symbols password = true ->
  is_generic_password new_PasswordChecker password = false.
Proof.
  intros Hascii Hsym.
  destruct (is_generic_password new_PasswordChecker password) eqn:Hg; [|reflexivity].
  destruct (generic_ascii_shape password Hascii Hg) as [Halnum _].
  apply existsb_exists in Hsym as (c & Hc & Hs).
  rewrite forallb_forall in Halnum. apply Halnum in Hc.
  apply symbol_not_alnum in Hs. congruence.
Qed.

(** X8: a password of ASCII characters gets the top score 10 from the
    constructed checker exactly when it has eight characters or more and
    holds an uppercase letter, a lowercase letter, a digit and a punctuation
    mark: the punctuation mark alone keeps it off the common list. *)
Theorem ascii_top_score (password : pystr) :
  forallb is_ascii password = true ->
  (score_password new_PasswordChecker password = 10 <->
   8 <= len password /\ classes_present password = 4).
Proof.
  intro Hascii. pose proof (classes_present_range password) as Hc. split.
  - intro H.
    destruct (is_generic_password new_PasswordChecker password) eqn:Hg.
    + unfold score_password in H. rewrite Hg in H. discriminate H.
    + rewrite (score_by_classes new_PasswordChecker password Hg) in H.
      destruct (8 <=? len password) eqn:E8; [apply Z.leb_le in E8; lia|].
      destruct (5 <=? len password); lia.
  - intros [Hlen H4].
    assert (Hsym : existsb in_symbols password = true).
    { unfold classes_present in H4.
      destruct (existsb isupper password), (existsb islower password),
        (existsb isdigit password), (existsb in_symbols password);
        try reflexivity; lia. }
    rewrite (score_by_classes new_PasswordChecker password
               (symbol_not_common password Hascii Hsym)).
    apply Z.leb_le in Hlen. rewrite Hlen, H4. reflexivity.
Qed.

End CommonList.

(** ** The breach lookup, further *)

Lemma splitlines_terminated_line (sep l : pystr) :
  Spec.newline sep ->
  Forall (fun c => is_linebreak c = false) l ->
  splitlines (l ++ sep) = [l].
Proof.
  intros Hsep Hl. rewrite <- (app_nil_r sep).
  now rewrite (splitlines_first_line sep l [] Hsep Hl).
Qed.

Lemma splitlines_join_terminated (sep : pystr) (ls : list pystr) :
  Spec.newline sep ->
  ls <> [] ->
  Forall (fun l => l <> [] /\ Forall (fun c => is_linebreak c = false) l) ls ->
  splitlines (Spec.join sep ls ++ sep) = ls.
Proof.
  intros Hsep Hne Hls. revert Hne.
  induction Hls as [|l ls [_ Hl] Hls IH]; intro Hne; [contradiction Hne; reflexivity|].
  destruct ls as [|l2 ls].
  - now apply splitlines_terminated_line.
  - change (Spec.join sep (l :: l2 :: ls)) with (l ++ sep ++ Spec.join sep (l2 :: ls)).
    rewrite <- !app_assoc.
    rewrite splitlines_first_line by assumption.
    rewrite IH by discriminate. reflexivity.
Qed.

Section BreachCheckerFurther.
Context {ucd : UnicodeData}.
Variable self : PasswordChecker.

Lemma http_error_status (r : Response) (msg : pystr) :
  http_error_msg r = Some msg -> 400 <= status_code r < 600.
Proof.
  unfold http_error_msg.
  destruct ((400 <=? status_code r) && (status_code r <? 500)) eqn:E4.
  - intros _. apply andb_true_iff in E4 as [A B].
    apply Z.leb_le in A. apply Z.ltb_lt in B. lia.
  - destruct ((500 <=? status_code r) && (status_code r <? 600)) eqn:E5;
      [|intro H; discriminate H].
    intros _. apply andb_true_iff in E5 as [A B].
    apply Z.leb_le in A. apply Z.ltb_lt in B. lia.
Qed.

(** The loop raises nothing but ValueError. *)
Lemma scan_hashes_raises (suffix : pystr) (hashes : list (list pystr)) (e : exn) :
  scan_hashes suffix hashes = Raise e -> exists k, e = ValueError k.
Proof.
  induction hashes as [|fields rest IH]; intro H; cbn [scan_hashes] in H.
  - discriminate H.
  - destruct fields as [|h [|count [|x more]]];
      try (injection H as <-; eexists; reflexivity).
    destruct (pystr_eqb h suffix); [|exact (IH H)].
    destruct (py_int count); [discriminate H|].
    injection H as <-. eexists. reflexivity.
Qed.

(** X9: the call raises RuntimeError only after a network failure: the GET
    -- its redirects followed -- raised inside [requests], or the status of
    its response was in 400..599; the message is then "Network error: "
    followed by the text of that failure.  A malformed body or an
    unencodable password never shows as a network error. *)
Theorem runtime_error_means_network_failure
    (password : pystr) (svc : Service) (log : list Request) (msg : pystr)
    (ctx : RequestException) :
  fst (check_pwned_password self password svc log) = Raise (RuntimeError msg ctx) ->
  msg = ustr "Network error: " ++ exc_message ctx /\
  exists data,
    encode_utf8 password = Return data /\
    (outcome_of_get svc (range_url (firstn 5 (sha1_upper data))) = Raise (RequestsError ctx)
     \/ exists r,
          outcome_of_get svc (range_url (firstn 5 (sha1_upper data))) = Return r /\
          400 <= status_code r < 600 /\ exc_class ctx = HTTPError).
Proof.
  intro H. destruct (encode_utf8 password) as [data|e] eqn:Henc.
  - rewrite (check_run self password data svc log Henc) in H. cbn [fst] in H.
    destruct (outcome_of_get svc (range_url (firstn 5 (sha1_upper data))))
      as [r|[c|e|m c|k|text]] eqn:Hget.
    + destruct (http_error_msg r) as [m|] eqn:Hm.
      * injection H as <- <-. split; [reflexivity|].
        exists data. split; [reflexivity|]. right. exists r.
        split; [exact Hget|]. split; [exact (http_error_status r m Hm) | reflexivity].
      * apply scan_hashes_raises in H as (k & Hk). discriminate Hk.
    + discriminate H.
    + injection H as <- <-. split; [reflexivity|].
      exists data. split; [reflexivity|]. left. exact Hget.
    + exfalso. unfold outcome_of_get, requests_get in Hget.
      apply send_following_raises in Hget as [(e & He) | (text & He)];
        discriminate He.
    + discriminate H.
    + discriminate H.
  - rewrite (check_unencodable self password e svc log Henc) in H. cbn [fst] in H.
    unfold encode_utf8 in Henc. destruct (Utf8.encode password); [|discriminate Henc].
    injection Henc as <-. discriminate H.
Qed.

(** X10: no RequestException leaves the call: whatever the service does,
    the call returns an integer or raises UnicodeEncodeError, RuntimeError,
    ValueError or what [requests] raised that is no RequestException.  It
    sends nothing, or one range query and after it at most 30 requests that
    follow redirects, each to a URL the service named. *)
Theorem requests_exceptions_never_escape
    (password : pystr) (svc : Service) (log : list Request) :
  (forall e, fst (check_pwned_password self password svc log) <> Raise (RequestsError e)) /\
  (snd (check_pwned_password self password svc log) = log
   \/ exists rq followups,
        range_query rq /\
        snd (check_pwned_password self password svc log) = log ++ rq :: followups /\
        Forall (server_chosen svc) followups /\
        (List.length followups <= max_redirects)%nat).
Proof.
  destruct (encode_utf8 password) as [data|e] eqn:Henc.
  - rewrite (check_run self password data svc log Henc). cbn [fst snd]. split.
    + intros e H.
      destruct (outcome_of_get svc (range_url (firstn 5 (sha1_upper data))))
        as [r|[c|e'|m c|k|text]] eqn:Hget; try discriminate H.
      destruct (http_error_msg r); [discriminate H|].
      apply scan_hashes_raises in H as (k & Hk). discriminate Hk.
    + right.
      destruct (send_following_sent max_redirects (range_url (firstn 5 (sha1_upper data))) svc)
        as (followups & Hsent & Hchosen & Hlen).
      exists (mkRequest (range_url (firstn 5 (sha1_upper data))) 10), followups.
      split; [|split; [|split; [exact Hchosen | exact Hlen]]].
      * exists (firstn 5 (sha1_upper data)). split; [|split; [|reflexivity]].
        -- rewrite length_firstn, sha1_upper_length. reflexivity.
        -- apply Forall_forall. intros c Hc. apply In_firstn in Hc.
           pose proof (sha1_upper_hex data) as Hhex. rewrite Forall_forall in Hhex.
           apply Hhex. exact Hc.
      * unfold requests_sent, requests_get. rewrite Hsent. reflexivity.
  - rewrite (check_unencodable self password e svc log Henc). cbn [fst snd]. split.
    + intros e' H. unfold encode_utf8 in Henc.
      destruct (Utf8.encode password); [|discriminate Henc].
      injection Henc as <-. discriminate H.
    + left. reflexivity.
Qed.

(** X11: a line terminator after the last record of a well-formed body
    changes nothing: the count of a record with the computed suffix (a count
    of 4300 digits at most, which [int] reads) is returned, or 0 when there
    is none. *)
Theorem final_terminator_is_accepted
    (password : pystr) (data : list Z) (sep : pystr) (recs : list (pystr * pystr))
    (svc : Service) (r : Response) (log : list Request) :
  encode_utf8 password = Return data ->
  let suffix := skipn 5 (sha1_upper data) in
  outcome_of_get svc (range_url (firstn 5 (sha1_upper data))) = Return r ->
  Spec.success_status (status_code r) = true ->
  Spec.newline sep ->
  Forall Spec.well_formed recs ->
  (forall ds, In (suffix, ds) recs -> (List.length ds <= int_max_str_digits)%nat) ->
  recs <> [] ->
  text r = Spec.body_of sep recs ++ sep ->
  (exists ds, In (suffix, ds) recs /\
     fst (check_pwned_password self password svc log) = Return (Spec.decimal_value ds))
  \/ ((forall ds, ~ In (suffix, ds) recs) /\
      fst (check_pwned_password self password svc log) = Return 0).
Proof.
  intros Henc suffix Hget Hok Hsep Hrecs Hlim Hne Hbody. subst suffix.
  rewrite (check_run self password data svc log Henc), Hget. cbn [fst].
  rewrite (success_no_http_error r Hok), Hbody. unfold Spec.body_of.
  rewrite splitlines_join_terminated.
  - rewrite map_map.
    rewrite (map_ext_in _ (fun rec => [fst rec; snd rec])).
    + apply scan_hashes_records; [exact Hrecs | exact Hlim].
    + intros rec Hin. apply line_of_fields.
      rewrite Forall_forall in Hrecs. apply Hrecs. exact Hin.
  - exact Hsep.
  - destruct recs; [congruence | discriminate].
  - apply Forall_map. eapply Forall_impl; [|exact Hrecs].
    intros rec. apply line_of_is_line.
Qed.

End BreachCheckerFurther.

(** ** The command interface *)

Lemma lines_strong_ind (P : list pystr -> Prop) :
  (forall lines,
      (forall shorter, (List.length shorter < List.length lines)%nat -> P shorter) ->
      P lines) ->
  forall lines, P lines.
Proof.
  intros Hstep lines.
  assert (H : forall n l, (List.length l < n)%nat -> P l).
  { induction n as [|n IH]; intros l Hl; [lia|].
    apply Hstep. intros shorter Hs. apply IH. lia. }
  apply (H (S (List.length lines))). lia.
Qed.


Section Session.
Context {ucd : UnicodeData}.
Variable checker : PasswordChecker.

Lemma leak_report_requests (et : exn -> pystr) (svc : Service) (password : pystr)
    (log : list Request) :
  snd (leak_report et checker svc password log)
  = snd (check_pwned_password checker password svc log).
Proof.
  unfold leak_report.
  destruct (check_pwned_password checker password svc log) as [[n|e] log']; reflexivity.
Qed.


Lemma lookups_asked_cons (line : pystr) (lines : list pystr) :
  lookups_asked (line :: lines)
  = ((if pystr_eqb (strip line) (ustr "2") then 1 else 0) + lookups_asked lines)%nat.
Proof.
  unfold lookups_asked. cbn [filter].
  destruct (pystr_eqb (strip line) (ustr "2")); reflexivity.
Qed.

Lemma check_sends (svc : Service) (password : pystr) (log : list Request) :
  exists sent,
    snd (check_pwned_password checker password svc log) = log ++ sent /\
    Forall (fun rq => range_query rq \/ server_chosen svc rq) sent /\
    (List.length sent <= S max_redirects)%nat.
Proof.
  destruct (encode_utf8 password) as [data|e] eqn:Henc.
  - rewrite (check_run checker password data svc log Henc). cbn [snd].
    destruct (send_following_sent max_redirects (range_url (firstn 5 (sha1_upper data))) svc)
      as (followups & Hsent & Hchosen & Hlen).
    exists (requests_sent svc (range_url (firstn 5 (sha1_upper data)))).
    split; [reflexivity|]. unfold requests_sent, requests_get. rewrite Hsent.
    split; [|cbn [List.length]; lia].
    constructor.
    + left. exists (firstn 5 (sha1_upper data)). split; [|split; [|reflexivity]].
      * rewrite length_firstn, sha1_upper_length. reflexivity.
      * apply Forall_forall. intros c Hc. apply In_firstn in Hc.
        pose proof (sha1_upper_hex data) as Hhex. rewrite Forall_forall in Hhex.
        apply Hhex. exact Hc.
    + eapply Forall_impl; [|exact Hchosen]. intros rq Hrq. right. exact Hrq.
  - rewrite (check_unencodable checker password e svc log Henc). cbn [snd].
    exists []. split; [symmetry; apply app_nil_r|]. split; [constructor | cbn; lia].
Qed.

(** At a service that never redirects, a lookup sends one range query at
    most. *)
Lemma check_sends_direct (svc : Service) (password : pystr) (log : list Request) :
  (forall rq target, svc rq <> Redirection target) ->
  exists sent,
    snd (check_pwned_password checker password svc log) = log ++ sent /\
    Forall range_query sent /\ (List.length sent <= 1)%nat.
Proof.
  intro Hdirect.
  destruct (check_sends svc password log) as (sent & Hs & Hq & _).
  exists sent. split; [exact Hs|].
  assert (Hrange : Forall range_query sent).
  { eapply Forall_impl; [|exact Hq]. intros rq [Hrq | [_ (asked & Hasked)]]; [exact Hrq|].
    exfalso. exact (Hdirect asked (req_url rq) Hasked). }
  split; [exact Hrange|].
  destruct (encode_utf8 password) as [data|e] eqn:Henc.
  - rewrite (check_run checker password data svc log Henc) in Hs. cbn [snd] in Hs.
    apply app_inv_head in Hs. subst sent.
    destruct (send_following_sent max_redirects (range_url (firstn 5 (sha1_upper data))) svc)
      as (followups & Hsent & Hchosen & _).
    unfold requests_sent, requests_get. rewrite Hsent.
    destruct followups as [|rq more]; [cbn [List.length]; lia|].
    exfalso. apply Forall_inv in Hchosen. destruct Hchosen as [_ (asked & Hasked)].
    exact (Hdirect asked (req_url rq) Hasked).
  - rewrite (check_unencodable checker password e svc log Henc) in Hs. cbn [snd] in Hs.
    rewrite <- (app_nil_r log) in Hs at 1. apply app_inv_head in Hs. subst sent.
    cbn [List.length]. lia.
Qed.

(** What a run sends, from what each lookup sends: requests of the kind
    [Q], [per] of them at most for each line that chose "2". *)
Lemma main_loop_sends (Q : Request -> Prop) (per : nat)
    (et : exn -> pystr) (svc : Service) (lines : list pystr) :
  (forall password log,
     exists sent,
       snd (check_pwned_password checker password svc log) = log ++ sent /\
       Forall Q sent /\ (List.length sent <= per)%nat) ->
  forall log,
  exists sent,
    requests_of (main_loop et checker svc lines log) = log ++ sent /\
    Forall Q sent /\ (List.length sent <= per * lookups_asked lines)%nat.
Proof.
  intro Hcheck.
  induction lines as [lines IH] using lines_strong_ind. intro log.
  destruct lines as [|line rest].
  - exists []. cbn. split; [symmetry; apply app_nil_r|]. split; [constructor | lia].
  - cbn [main_loop]. rewrite lookups_asked_cons.
    destruct (pystr_eqb (strip line) (ustr "1")) eqn:E1.
    + destruct rest as [|typed rest'].
      * exists []. cbn. split; [symmetry; apply app_nil_r|]. split; [constructor | lia].
      * destruct (IH rest' ltac:(cbn; lia) log) as (sent & Hs & Hq & Hn).
        destruct (main_loop et checker svc rest' log) as [[out log'] ending].
        exists sent. unfold requests_of in *. cbn [fst snd] in *.
        split; [exact Hs|]. split; [exact Hq|].
        rewrite lookups_asked_cons. nia.
    + destruct (pystr_eqb (strip line) (ustr "2")) eqn:E2.
      * destruct rest as [|typed rest'].
        -- exists []. cbn. split; [symmetry; apply app_nil_r|]. split; [constructor | lia].
        -- pose proof (leak_report_requests et svc (strip typed) log) as Hlr.
           destruct (leak_report et checker svc (strip typed) log) as [report log1].
           cbn [snd] in Hlr.
           destruct (Hcheck (strip typed) log) as (s1 & Hs1 & Hq1 & Hn1).
           rewrite <- Hlr in Hs1.
           destruct (IH rest' ltac:(cbn; lia) log1) as (sent & Hs & Hq & Hn).
           destruct (main_loop et checker svc rest' log1) as [[out log'] ending].
           exists (s1 ++ sent). unfold requests_of in *. cbn [fst snd] in *.
           split; [rewrite Hs, Hs1; symmetry; apply app_assoc|].
           split; [apply Forall_app; split; assumption|].
           rewrite length_app, lookups_asked_cons. nia.
      * destruct (pystr_eqb (strip line) (ustr "3")) eqn:E3.
        -- exists []. cbn. split; [symmetry; apply app_nil_r|]. split; [constructor | lia].
        -- destruct (IH rest ltac:(cbn; lia) log) as (sent & Hs & Hq & Hn).
           destruct (main_loop et checker svc rest log) as [[out log'] ending].
           exists sent. unfold requests_of in *. cbn [fst snd] in *.
           split; [exact Hs|]. split; [exact Hq | nia].
Qed.


Lemma main_loop_last (et : exn -> pystr) (svc : Service) (lines : list pystr) :
  forall log,
    match ending_of (main_loop et checker svc lines log) with
    | Exited =>
        exists before,
          output_of (main_loop et checker svc lines log) = before ++ [Print msg_exiting]
    | EOFError =>
        exists before asked,
          output_of (main_loop et checker svc lines log) = before ++ [Prompt asked]
    end.
Proof.
  assert (Hshift : forall (front out : list Out) (e : Ending),
             match e with
             | Exited => exists before, out = before ++ [Print msg_exiting]
             | EOFError => exists before asked, out = before ++ [Prompt asked]
             end ->
             match e with
             | Exited => exists before, front ++ out = before ++ [Print msg_exiting]
             | EOFError => exists before asked, front ++ out = before ++ [Prompt asked]
             end).
  { intros front out [|].
    - intros (before & ->). exists (front ++ before). apply app_assoc.
    - intros (before & asked & ->). exists (front ++ before), asked. apply app_assoc. }
  induction lines as [lines IH] using lines_strong_ind. intro log.
  destruct lines as [|line rest].
  - cbn. exists show_menu. eexists. reflexivity.
  - cbn [main_loop].
    destruct (pystr_eqb (strip line) (ustr "1")) eqn:E1.
    + destruct rest as [|typed rest'].
      * unfold ending_of, output_of. cbn [fst snd].
        eexists (show_menu ++ [choice_prompt; _]). eexists.
        rewrite <- app_assoc. reflexivity.
      * pose proof (IH rest' ltac:(cbn; lia) log) as Hrec.
        destruct (main_loop et checker svc rest' log) as [[out log'] ending].
        unfold ending_of, output_of in *. cbn [fst snd] in *.
        rewrite app_assoc. apply Hshift. exact Hrec.
    + destruct (pystr_eqb (strip line) (ustr "2")) eqn:E2.
      * destruct rest as [|typed rest'].
        -- unfold ending_of, output_of. cbn [fst snd].
           eexists (show_menu ++ [choice_prompt; _]). eexists.
           rewrite <- app_assoc. reflexivity.
        -- destruct (leak_report et checker svc (strip typed) log) as [report log1].
           pose proof (IH rest' ltac:(cbn; lia) log1) as Hrec.
           destruct (main_loop et checker svc rest' log1) as [[out log'] ending].
           unfold ending_of, output_of in *. cbn [fst snd] in *.
           rewrite app_assoc. apply Hshift. exact Hrec.
      * destruct (pystr_eqb (strip line) (ustr "3")) eqn:E3.
        -- unfold ending_of, output_of. cbn [fst snd].
           exists (show_menu ++ [choice_prompt]). rewrite <- app_assoc. reflexivity.
        -- pose proof (IH rest ltac:(cbn; lia) log) as Hrec.
           destruct (main_loop et checker svc rest log) as [[out log'] ending].
           unfold ending_of, output_of in *. cbn [fst snd] in *.
           rewrite app_assoc. apply Hshift. exact Hrec.
Qed.

Lemma main_loop_stripped (et : exn -> pystr) (svc : Service) (lines : list pystr) :
  forall lines' log,
    map strip lines = map strip lines' ->
    main_loop et checker svc lines log = main_loop et checker svc lines' log.
Proof.
  induction lines as [lines IH] using lines_strong_ind. intros lines' log Hmap.
  destruct lines as [|line rest], lines' as [|line' rest2]; try discriminate Hmap;
    [reflexivity|].
  cbn [map] in Hmap. injection Hmap as Hline Hrest.
  cbn [main_loop]. rewrite <- Hline.
  destruct (pystr_eqb (strip line) (ustr "1")) eqn:E1.
  - destruct rest as [|typed rest'], rest2 as [|typed2 rest2']; try discriminate Hrest;
      [reflexivity|].
    cbn [map] in Hrest. injection Hrest as Htyped Hrest.
    rewrite <- Htyped.
    rewrite (IH rest' ltac:(cbn; lia) rest2' log Hrest). reflexivity.
  - destruct (pystr_eqb (strip line) (ustr "2")) eqn:E2.
    + destruct rest as [|typed rest'], rest2 as [|typed2 rest2']; try discriminate Hrest;
        [reflexivity|].
      cbn [map] in Hrest. injection Hrest as Htyped Hrest.
      rewrite <- Htyped.
      destruct (leak_report et checker svc (strip typed) log) as [report log1].
      rewrite (IH rest' ltac:(cbn; lia) rest2' log1 Hrest). reflexivity.
    + destruct (pystr_eqb (strip line) (ustr "3")) eqn:E3; [reflexivity|].
      rewrite (IH rest ltac:(cbn; lia) rest2 log Hrest). reflexivity.
Qed.

End Session.

Section MainProgram.
Context {ucd : UnicodeData}.

(** X12: in a whole run of [main], whatever is typed and whatever the
    service answers, a request that leaves the process is a range query --
    the fixed base URL followed by five uppercase hexadecimal characters,
    timeout 10 -- or follows a redirect, to a URL the service named; there
    are at most 31 of them for each line that chose "2" (a range query and
    30 redirects followed), and at a service that never redirects they are
    all range queries, one at most for each such line.  Analysing the
    strength of a password sends nothing. *)
Theorem session_sends_only_range_queries
    (et : exn -> pystr) (svc : Service) (lines : list pystr) :
  Forall (fun rq => range_query rq \/ server_chosen svc rq) (requests_of (main et svc lines)) /\
  (List.length (requests_of (main et svc lines)) <= S max_redirects * lookups_asked lines)%nat /\
  ((forall rq target, svc rq <> Redirection target) ->
   Forall range_query (requests_of (main et svc lines)) /\
   (List.length (requests_of (main et svc lines)) <= lookups_asked lines)%nat).
Proof.
  unfold main. split; [|split].
  - destruct (main_loop_sends new_PasswordChecker _ _ et svc lines
                (check_sends new_PasswordChecker svc) []) as (sent & Hs & Hq & _).
    rewrite Hs. exact Hq.
  - destruct (main_loop_sends new_PasswordChecker _ _ et svc lines
                (check_sends new_PasswordChecker svc) []) as (sent & Hs & _ & Hn).
    rewrite Hs. exact Hn.
  - intro Hdirect.
    destruct (main_loop_sends new_PasswordChecker _ _ et svc lines
                (fun password log =>
                   check_sends_direct new_PasswordChecker svc password log Hdirect) [])
      as (sent & Hs & Hq & Hn).
    rewrite Hs. cbn [app]. split; [exact Hq|]. rewrite Nat.mul_1_l in Hn. exact Hn.
Qed.


(** X14: what a run of [main] writes last: when it returns (after choice
    3), the farewell; when [input] met the end of the input, the prompt at
    which it waited. *)
Theorem farewell_or_prompt_is_written_last
    (et : exn -> pystr) (svc : Service) (lines : list pystr) :
  (ending_of (main et svc lines) = Exited ->
   exists before, output_of (main et svc lines) = before ++ [Print msg_exiting]) /\
  (ending_of (main et svc lines) = EOFError ->
   exists before asked, output_of (main et svc lines) = before ++ [Prompt asked]).
Proof.
  unfold main. pose proof (main_loop_last new_PasswordChecker et svc lines []) as H.
  destruct (ending_of (main_loop et new_PasswordChecker svc lines []));
    split; intro E; try discriminate E; exact H.
Qed.

(** X15: [main] reads every line through [strip]: two inputs whose lines
    are equal once stripped give the same run.  The password that is scored
    or looked up is the typed one without the spaces around it. *)
Theorem session_ignores_surrounding_spaces
    (et : exn -> pystr) (svc : Service) (lines lines' : list pystr) :
  map strip lines = map strip lines' ->
  main et svc lines = main et svc lines'.
Proof. intro H. unfold main. now apply main_loop_stripped. Qed.

(** X16: after a lookup the good-news line is written exactly when the call
    returned 0: never after an exception, and never for another count. *)
Theorem good_news_only_for_zero
    (et : exn -> pystr) (self : PasswordChecker) (svc : Service)
    (password : pystr) (log : list Request) :
  fst (leak_report et self svc password log) = [Print msg_good_news] <->
  fst (check_pwned_password self password svc log) = Return 0.
Proof.
  unfold leak_report.
  destruct (check_pwned_password self password svc log) as [[n|e] log']; cbn [fst].
  - destruct (n =? 0) eqn:E; [apply Z.eqb_eq in E | apply Z.eqb_neq in E].
    + subst n. split; reflexivity.
    + split; intro H; [discriminate H | congruence].
  - split; intro H; [|discriminate H].
    apply (f_equal (fun out => match out with
                               | Print s :: _ => nth 1 s 0
                               | _ => 0
                               end)) in H.
    vm_compute in H. discriminate H.
Qed.

(** X17: when the GET of a lookup -- its redirects followed -- fails inside
    [requests], what the user reads is "An error occurred: Network error: "
    followed by the text of the failure. *)
Theorem network_failure_is_shown
    (et : exn -> pystr) (self : PasswordChecker) (svc : Service)
    (password : pystr) (data : list Z) (log : list Request) (e : RequestException) :
  encode_utf8 password = Return data ->
  outcome_of_get svc (range_url (firstn 5 (sha1_upper data))) = Raise (RequestsError e) ->
  fst (leak_report et self svc password log)
  = [Print ([10] ++ ustr "An error occurred: Network error: " ++ exc_message e ++ [10])].
Proof.
  intros Henc Hget. unfold leak_report.
  rewrite (check_run self password data svc log Henc), Hget.
  cbn [fst str_exn]. rewrite <- !app_assoc. reflexivity.
Qed.

End MainProgram.

(** ** The further properties at concrete inputs *)

Lemma score_never_drops_when_extended_witness :
  score_password (ucd := ascii_only) new_PasswordChecker (ustr "abc")
  <= score_password (ucd := ascii_only) new_PasswordChecker (ustr "X" ++ ustr "abc" ++ ustr "1!").
Proof.
  apply (@score_never_drops_when_extended ascii_only new_PasswordChecker
           (ustr "X") (ustr "abc") (ustr "1!")).
  - vm_compute. reflexivity.
  - vm_compute. reflexivity.
Defined.

Lemma common_ascii_password_shape_witness :
  forallb ascii_isalnum (ustr "DRAGON") = true /\ 4 <= len (ustr "DRAGON") <= 10.
Proof.
  apply (@common_ascii_password_shape ascii_only (ustr "DRAGON")).
  - vm_compute. reflexivity.
  - vm_compute. reflexivity.
Defined.

Lemma ascii_top_score_witness :
  score_password (ucd := ascii_only) new_PasswordChecker (ustr "Tr0ub4dor&3") = 10.
Proof.
  apply (proj2 (@ascii_top_score ascii_only (ustr "Tr0ub4dor&3") eq_refl)).
  split; [vm_compute; discriminate | vm_compute; reflexivity].
Defined.

Lemma runtime_error_means_network_failure_witness :
  ustr "Network error: Connection refused"
  = ustr "Network error: " ++ exc_message connection_refused.
Proof.
  apply (proj1 (@runtime_error_means_network_failure ascii_only new_PasswordChecker
                  (ustr "password") (mock_failure connection_refused) []
                  (ustr "Network error: Connection refused") connection_refused
                  ltac:(vm_compute; reflexivity))).
Defined.

Lemma final_terminator_is_accepted_witness :
  (exists ds,
     In (skipn 5 (sha1_upper (ucd := ascii_only) (ustr "password")), ds) sample_records /\
     fst (check_pwned_password (ucd := ascii_only) new_PasswordChecker (ustr "password")
            (mock 200 (Spec.body_of [10] sample_records ++ [10])) [])
     = Return (Spec.decimal_value ds))
  \/ ((forall ds,
         ~ In (skipn 5 (sha1_upper (ucd := ascii_only) (ustr "password")), ds) sample_records) /\
      fst (check_pwned_password (ucd := ascii_only) new_PasswordChecker (ustr "password")
             (mock 200 (Spec.body_of [10] sample_records ++ [10])) [])
      = Return 0).
Proof.
  refine (@final_terminator_is_accepted ascii_only new_PasswordChecker
            (ustr "password") (ustr "password") [10] sample_records
            (mock 200 (Spec.body_of [10] sample_records ++ [10]))
            (mkResponse 200 (ustr "") (ustr "https://api.pwnedpasswords.com/range/5BAA6")
               (Spec.body_of [10] sample_records ++ [10])) []
            _ _ _ _ sample_records_well_formed _ _ _).
  - vm_compute. reflexivity.
  - vm_compute. reflexivity.
  - reflexivity.
  - left. reflexivity.
  - intros ds Hin. apply in_map with (f := snd) in Hin. cbn [snd] in Hin.
    cbv [sample_records map snd] in Hin.
    destruct Hin as [<- | [<- | [<- | []]]]; apply Nat.leb_le; vm_compute; reflexivity.
  - discriminate.
  - reflexivity.
Defined.

Lemma session_ignores_surrounding_spaces_witness :
  main (ucd := ascii_only) no_text (mock 200 [])
       [ustr "  2 "; [9] ++ ustr "password" ++ [32]; ustr " 3"]
  = main (ucd := ascii_only) no_text (mock 200 []) [ustr "2"; ustr "password"; ustr "3"].
Proof.
  apply (@session_ignores_surrounding_spaces ascii_only no_text (mock 200 [])).
  vm_compute. reflexivity.
Defined.

Lemma network_failure_is_shown_witness :
  fst (leak_report (ucd := ascii_only) no_text new_PasswordChecker
         mock_loop (ustr "password") [])
  = [Print ([10] ++ ustr "An error occurred: Network error: Exceeded 30 redirects." ++ [10])].
Proof.
  apply (@network_failure_is_shown ascii_only no_text new_PasswordChecker
           mock_loop (ustr "password") (ustr "password") [] too_many_redirects).
  - vm_compute. reflexivity.
  - vm_compute. reflexivity.
Defined.
